(** * A model of [src/utils/csv.ts]: JSON records to CSV text

    The file embeds the converter of the repository -- [jsonToCsv] and
    [convertJsonFileToCsv] -- together with the part of the JavaScript
    run time it calls: truthiness, property lookup through
    [Object.prototype], [JSON.stringify], [JSON.parse], [Array.prototype.sort],
    [join], [split] and the two file-system calls.

    Conventions of the embedding:
    - a JavaScript string is the Rocq [string] of its UTF-8 bytes (a lone
      surrogate, which only a [\u] escape of [JSON.parse] can create, is
      kept as its three-byte generalised UTF-8 form);
    - a JavaScript object built by [JSON.parse] is the association list of
      its own properties in [Object.keys] order;
    - a call that may throw returns an [outcome]; code with effects on the
      file system and the console runs in the monad [IO];
    - numbers and collation belong to the engine and are the fields of a
      [Host]. *)

From Stdlib Require Import ZArith List String Ascii Bool Lia.
From Stdlib Require Import Sorting.Sorted Sorting.Permutation DecimalString.
Import ListNotations.
Local Open Scope string_scope.

(** ** The JavaScript run time used by the converter *)
Module Js.

(** Exceptions the converter can meet. *)
Inductive exn : Type :=
| TypeError
| SyntaxError
| SystemError (code : string).

(** The result of an evaluation: a value, or a thrown exception. *)
Inductive outcome (A : Type) : Type :=
| Ok (a : A)
| Throw (e : exn).
Arguments Ok {A} a.
Arguments Throw {A} e.

Definition bind {A B : Type} (m : outcome A) (k : A -> outcome B) : outcome B :=
  match m with
  | Ok a => k a
  | Throw e => Throw e
  end.

Declare Scope js_scope.
Delimit Scope js_scope with js.
Notation "x <- m ;; k" := (bind m (fun x => k))
  (at level 61, m at next level, right associativity) : js_scope.
Local Open Scope js_scope.

(** Values that [JSON.parse] builds.  An object lists its own properties
    in the order [Object.keys] enumerates them. *)
#[local] Unset Elimination Schemes.
Inductive json (number : Type) : Type :=
| JNull
| JBool (b : bool)
| JNumber (n : number)
| JString (s : string)
| JArray (items : list (json number))
| JObject (props : list (string * json number)).
#[local] Set Elimination Schemes.
Arguments JNull {number}.
Arguments JBool {number} b.
Arguments JNumber {number} n.
Arguments JString {number} s.
Arguments JArray {number} items.
Arguments JObject {number} props.

(** What the engine decides.  [number] stands for the IEEE doubles;
    [Number_toBoolean n] is [false] on [+0], [-0] and [NaN];
    [StringToNumber] reads a JSON numeric literal; [localeCompare s that]
    is [s.localeCompare(that)].
    [dynamic_jsonToCsv] is what the compiled [jsonToCsv] does on an array
    with an element that is not an object, outside its declared parameter
    type [JsonRecord[]] (the annotation is erased at run time): that
    depends on the members of the engine's built-in prototypes and is left
    open. *)
Class Host : Type := {
  number : Type;
  Number_toString : number -> string;
  Number_isFinite : number -> bool;
  Number_toBoolean : number -> bool;
  StringToNumber : string -> number;
  localeCompare : string -> string -> Z;
  dynamic_jsonToCsv : json number -> outcome string
}.

(** The double quote, the reverse solidus and the line feed. *)
Definition DQUOTE : ascii := "034"%char.
Definition BACKSLASH : ascii := "092"%char.
Definition LF : string := String "010"%char "".

(** [Array.prototype.join] on an array of strings. *)
Definition join (sep : string) (l : list string) : string := String.concat sep l.

(** [s.split(sep)] for a separator of one character. *)
Fixpoint split_aux (sep : ascii) (cur : string) (s : string) : list string :=
  match s with
  | EmptyString => [cur]
  | String c rest =>
      if Ascii.eqb c sep then cur :: split_aux sep "" rest
      else split_aux sep (cur ++ String c "") rest
  end.
Definition split (sep : ascii) (s : string) : list string := split_aux sep "" s.

(** Decimal text of a small non-negative integer, as a template literal
    prints it. *)
Definition nat_toString (n : nat) : string := NilZero.string_of_uint (Nat.to_uint n).

(** Lower-case hexadecimal digit. *)
Definition hex_digit (n : N) : ascii :=
  if (n <? 10)%N then ascii_of_N (48 + n) else ascii_of_N (87 + n).

(** [\uXXXX] for a code unit. *)
Definition UnicodeEscape (cu : N) : string :=
  String BACKSLASH (String "u"
    (String (hex_digit (N.land (N.shiftr cu 12) 15))
    (String (hex_digit (N.land (N.shiftr cu 8) 15))
    (String (hex_digit (N.land (N.shiftr cu 4) 15))
    (String (hex_digit (N.land cu 15)) ""))))).

(** [QuoteJSONString] without the enclosing quotes.  The three bytes
    [ED A0..BF xx] are a lone surrogate and are escaped; every other byte
    above [0x1F] except the quote and the reverse solidus stands for
    itself. *)
Fixpoint quote_chars (s : string) : string :=
  match s with
  | EmptyString => ""
  | String c rest =>
      let n := N_of_ascii c in
      if (n =? 34)%N then String BACKSLASH (String DQUOTE (quote_chars rest))
      else if (n =? 92)%N then String BACKSLASH (String BACKSLASH (quote_chars rest))
      else if (n =? 8)%N then String BACKSLASH (String "b" (quote_chars rest))
      else if (n =? 9)%N then String BACKSLASH (String "t" (quote_chars rest))
      else if (n =? 10)%N then String BACKSLASH (String "n" (quote_chars rest))
      else if (n =? 12)%N then String BACKSLASH (String "f" (quote_chars rest))
      else if (n =? 13)%N then String BACKSLASH (String "r" (quote_chars rest))
      else if (n <? 32)%N then UnicodeEscape n ++ quote_chars rest
      else
        match rest with
        | String c1 (String c2 rest') =>
            let n1 := N_of_ascii c1 in
            let n2 := N_of_ascii c2 in
            if ((n =? 237) && (160 <=? n1) && (n1 <=? 191))%N
            then UnicodeEscape (53248 + N.shiftl (N.land n1 63) 6 + N.land n2 63)
                   ++ quote_chars rest'
            else String c (quote_chars rest)
        | _ => String c (quote_chars rest)
        end
  end.

Definition QuoteJSONString (s : string) : string :=
  String DQUOTE (quote_chars s ++ String DQUOTE "").

Section Builtins.
Context {H : Host}.

Definition JSON := json number.

(** The own properties of an object made by [JSON.parse]. *)
Definition JsonObject := list (string * JSON).

(** A value at run time: a JSON value, [undefined], or one of the members
    every object inherits from [Object.prototype]. *)
Inductive value : Type :=
| Undefined
| Json (j : JSON)
| BuiltinFunction (name : string)
| ObjectPrototype.

(** [ToBoolean]. *)
Definition ToBoolean (v : value) : bool :=
  match v with
  | Undefined => false
  | Json JNull => false
  | Json (JBool b) => b
  | Json (JNumber n) => Number_toBoolean n
  | Json (JString s) => negb (s =? "")
  | Json (JArray _) => true
  | Json (JObject _) => true
  | BuiltinFunction _ => true
  | ObjectPrototype => true
  end.

(** [x || y]. *)
Definition or_else (x y : value) : value := if ToBoolean x then x else y.

(** Own property of an object. *)
Fixpoint own_property (o : JsonObject) (key : string) : option JSON :=
  match o with
  | [] => None
  | (k, v) :: rest => if k =? key then Some v else own_property rest key
  end.

Definition has_own_property (o : JsonObject) (key : string) : bool :=
  match own_property o key with
  | Some _ => true
  | None => false
  end.

(** The function-valued properties of [Object.prototype]. *)
Definition Object_prototype_methods : list string :=
  [ "constructor"; "hasOwnProperty"; "isPrototypeOf"; "propertyIsEnumerable";
    "toLocaleString"; "toString"; "valueOf";
    "__defineGetter__"; "__defineSetter__"; "__lookupGetter__"; "__lookupSetter__" ].

(** [o[key]] on an object made by [JSON.parse]: the own property, else the
    one inherited from [Object.prototype], else [undefined]. *)
Definition Get (o : JsonObject) (key : string) : value :=
  match own_property o key with
  | Some j => Json j
  | None =>
      if key =? "__proto__" then ObjectPrototype
      else if existsb (String.eqb key) Object_prototype_methods then BuiltinFunction key
      else Undefined
  end.

(** [base?.[key]] for a [key] that names no index and no member of a
    built-in prototype (the converter passes [sem1] to [sem8] only): an
    own property of an object, [undefined] on everything else. *)
Definition optional_member (base : value) (key : string) : value :=
  match base with
  | Json (JObject o) => Get o key
  | _ => Undefined
  end.

(** [Object.keys]. *)
Definition Object_keys (o : JsonObject) : list string := map fst o.

(** [ToString] of a JSON value.  An array is joined with commas, [null]
    elements printing as nothing; an object prints through
    [Object.prototype.toString] unless an own [toString] property, which
    is never callable here, hides it: then no primitive is reached. *)
Fixpoint ToString_json (j : JSON) : outcome string :=
  match j with
  | JNull => Ok "null"
  | JBool b => Ok (if b then "true" else "false")
  | JNumber n => Ok (Number_toString n)
  | JString s => Ok s
  | JArray items =>
      parts <- (fix each (l : list JSON) : outcome (list string) :=
                  match l with
                  | [] => Ok []
                  | x :: rest =>
                      s <- match x with
                           | JNull => Ok ""
                           | _ => ToString_json x
                           end ;;
                      ss <- each rest ;;
                      Ok (s :: ss)
                  end) items ;;
      Ok (join "," parts)
  | JObject props =>
      if has_own_property props "toString" then Throw TypeError
      else Ok "[object Object]"
  end.

(** [ToString] of a run-time value (a built-in function prints as V8
    prints native code). *)
Definition ToString (v : value) : outcome string :=
  match v with
  | Undefined => Ok "undefined"
  | Json j => ToString_json j
  | BuiltinFunction name => Ok ("function " ++ name ++ "() { [native code] }")
  | ObjectPrototype => Ok "[object Object]"
  end.

(** [JSON.stringify] on a JSON value, without replacer or indentation. *)
Fixpoint stringify (j : JSON) : string :=
  match j with
  | JNull => "null"
  | JBool b => if b then "true" else "false"
  | JNumber n => if Number_isFinite n then Number_toString n else "null"
  | JString s => QuoteJSONString s
  | JArray items => "[" ++ join "," (map stringify items) ++ "]"
  | JObject props =>
      "{" ++ join "," (map (fun kv => QuoteJSONString (fst kv) ++ ":" ++ stringify (snd kv)) props)
          ++ "}"
  end.

(** [JSON.stringify] on a run-time value: [undefined] (here [None]) for
    [undefined] and for a function; [Object.prototype] has no enumerable
    property. *)
Definition JSON_stringify (v : value) : option string :=
  match v with
  | Undefined => None
  | Json j => Some (stringify j)
  | BuiltinFunction _ => None
  | ObjectPrototype => Some "{}"
  end.

(** [Array.prototype.join] on an array whose elements are strings or
    [undefined]: an [undefined] element prints as nothing. *)
Definition Array_join (sep : string) (l : list (option string)) : string :=
  join sep (map (fun x => match x with Some s => s | None => "" end) l).

End Builtins.

(** [Array.prototype.sort].  ECMAScript fixes the result for a consistent
    comparator (the sort is stable) and leaves the sequence of comparator
    calls to the engine.  The model is a stable insertion sort: each
    element in turn is compared, as first argument, with the elements
    already placed, from the front, and goes before the first one it is
    smaller than. *)
Section Sort.
Context {A : Type}.
Variable comparefn : A -> A -> outcome Z.

Fixpoint insert (x : A) (placed : list A) : outcome (list A) :=
  match placed with
  | [] => Ok [x]
  | y :: rest =>
      c <- comparefn x y ;;
      if (c <? 0)%Z then Ok (x :: y :: rest)
      else (rest' <- insert x rest ;; Ok (y :: rest'))
  end.

Fixpoint sort_from (placed : list A) (pending : list A) : outcome (list A) :=
  match pending with
  | [] => Ok placed
  | x :: rest => placed' <- insert x placed ;; sort_from placed' rest
  end.

Definition Array_sort (l : list A) : outcome (list A) := sort_from [] l.

End Sort.

(** *** [JSON.parse] *)

(** UTF-8 bytes of a code point; a surrogate code unit on its own takes
    the three-byte form. *)
Definition utf8_encode (cp : N) : string :=
  if (cp <? 128)%N then String (ascii_of_N cp) ""
  else if (cp <? 2048)%N then
    String (ascii_of_N (192 + N.shiftr cp 6))
      (String (ascii_of_N (128 + N.land cp 63)) "")
  else if (cp <? 65536)%N then
    String (ascii_of_N (224 + N.shiftr cp 12))
      (String (ascii_of_N (128 + N.land (N.shiftr cp 6) 63))
        (String (ascii_of_N (128 + N.land cp 63)) ""))
  else
    String (ascii_of_N (240 + N.shiftr cp 18))
      (String (ascii_of_N (128 + N.land (N.shiftr cp 12) 63))
        (String (ascii_of_N (128 + N.land (N.shiftr cp 6) 63))
          (String (ascii_of_N (128 + N.land cp 63)) ""))).

Definition is_whitespace (c : ascii) : bool :=
  let n := N_of_ascii c in
  ((n =? 9) || (n =? 10) || (n =? 13) || (n =? 32))%N.

Fixpoint skip_whitespace (s : string) : string :=
  match s with
  | String c rest => if is_whitespace c then skip_whitespace rest else s
  | EmptyString => s
  end.

Definition is_digit (c : ascii) : bool :=
  let n := N_of_ascii c in ((48 <=? n) && (n <=? 57))%N.

Definition hex_value (c : ascii) : option N :=
  let n := N_of_ascii c in
  if ((48 <=? n) && (n <=? 57))%N then Some (n - 48)%N
  else if ((65 <=? n) && (n <=? 70))%N then Some (n - 55)%N
  else if ((97 <=? n) && (n <=? 102))%N then Some (n - 87)%N
  else None.

(** Four hexadecimal digits at the head of [s]. *)
Definition read_hex4 (s : string) : option (N * string) :=
  match s with
  | String a (String b (String c (String d rest))) =>
      match hex_value a, hex_value b, hex_value c, hex_value d with
      | Some x3, Some x2, Some x1, Some x0 =>
          Some ((4096 * x3 + 256 * x2 + 16 * x1 + x0)%N, rest)
      | _, _, _, _ => None
      end
  | _ => None
  end.

Definition is_high_surrogate (cu : N) : bool := ((55296 <=? cu) && (cu <=? 56319))%N.
Definition is_low_surrogate (cu : N) : bool := ((56320 <=? cu) && (cu <=? 57343))%N.

(** A [\uXXXX] escape at the head of [s] that holds a low surrogate. *)
Definition read_low_surrogate (s : string) : option (N * string) :=
  match s with
  | String c (String "u" rest) =>
      if Ascii.eqb c BACKSLASH then
        match read_hex4 rest with
        | Some (lo, rest') => if is_low_surrogate lo then Some (lo, rest') else None
        | None => None
        end
      else None
  | _ => None
  end.

(** The characters of a string literal after its opening quote, up to
    and including the closing quote.  [acc] holds what was read. *)
Fixpoint parse_chars (fuel : nat) (acc : string) (s : string) : option (string * string) :=
  match fuel with
  | O => None
  | S fuel' =>
      match s with
      | EmptyString => None
      | String c rest =>
          if Ascii.eqb c DQUOTE then Some (acc, rest)
          else if Ascii.eqb c BACKSLASH then
            match rest with
            | String e rest' =>
                let simple (b : N) := parse_chars fuel' (acc ++ String (ascii_of_N b) "") rest' in
                if Ascii.eqb e DQUOTE then simple 34%N
                else if Ascii.eqb e BACKSLASH then simple 92%N
                else if Ascii.eqb e "/" then simple 47%N
                else if Ascii.eqb e "b" then simple 8%N
                else if Ascii.eqb e "f" then simple 12%N
                else if Ascii.eqb e "n" then simple 10%N
                else if Ascii.eqb e "r" then simple 13%N
                else if Ascii.eqb e "t" then simple 9%N
                else if Ascii.eqb e "u" then
                  match read_hex4 rest' with
                  | Some (cu, after) =>
                      match (if is_high_surrogate cu then read_low_surrogate after else None) with
                      | Some (lo, after') =>
                          parse_chars fuel'
                            (acc ++ utf8_encode (65536 + 1024 * (cu - 55296) + (lo - 56320))%N)
                            after'
                      | None => parse_chars fuel' (acc ++ utf8_encode cu) after
                      end
                  | None => None
                  end
                else None
            | EmptyString => None
            end
          else if (N_of_ascii c <? 32)%N then None
          else parse_chars fuel' (acc ++ String c "") rest
      end
  end.

Definition parse_string (s : string) : option (string * string) :=
  parse_chars (S (String.length s)) "" s.

(** The longest run of digits at the head of [s]. *)
Fixpoint take_digits (s : string) : string * string :=
  match s with
  | String c rest =>
      if is_digit c then let (ds, r) := take_digits rest in (String c ds, r)
      else ("", s)
  | EmptyString => ("", s)
  end.

(** A JSON number: an optional minus, an integer part without leading
    zero, an optional fraction, an optional exponent.  Returns the text
    of the literal. *)
Definition parse_number (s : string) : option (string * string) :=
  let (sign, s1) :=
    match s with
    | String "-" r => ("-", r)
    | _ => ("", s)
    end in
  let int_part :=
    match s1 with
    | String "0" r => Some ("0", r)
    | _ => match take_digits s1 with
           | ("", _) => None
           | (ds, r) => Some (ds, r)
           end
    end in
  match int_part with
  | None => None
  | Some (ip, s2) =>
      let frac :=
        match s2 with
        | String "." r =>
            match take_digits r with
            | ("", _) => None
            | (ds, r') => Some ("." ++ ds, r')
            end
        | _ => Some ("", s2)
        end in
      match frac with
      | None => None
      | Some (fp, s3) =>
          let exponent (mark : string) (r : string) :=
            let (esign, r1) :=
              match r with
              | String "+" r' => ("+", r')
              | String "-" r' => ("-", r')
              | _ => ("", r)
              end in
            match take_digits r1 with
            | ("", _) => None
            | (ds, r') => Some (mark ++ esign ++ ds, r')
            end in
          let ex :=
            match s3 with
            | String "e" r => exponent "e" r
            | String "E" r => exponent "E" r
            | _ => Some ("", s3)
            end in
          match ex with
          | None => None
          | Some (ep, s4) => Some (sign ++ ip ++ fp ++ ep, s4)
          end
      end
  end.

(** The number a run of digits denotes. *)
Fixpoint digits_value (acc : N) (ds : string) : N :=
  match ds with
  | String c rest => digits_value (10 * acc + (N_of_ascii c - 48))%N rest
  | EmptyString => acc
  end.

(** [s] is the head of [input]: the rest of [input]. *)
Fixpoint expect (s input : string) : option string :=
  match s, input with
  | EmptyString, _ => Some input
  | String a s', String b input' => if Ascii.eqb a b then expect s' input' else None
  | String _ _, EmptyString => None
  end.

Section Parse.
Context {H : Host}.

(** A canonical array index: the decimal text, without leading zero, of
    an integer below [2^32 - 1]. *)
Definition array_index (key : string) : option N :=
  match take_digits key with
  | (ds, EmptyString) =>
      match ds with
      | EmptyString => None
      | String "0" (String _ _) => None
      | _ =>
          let n := digits_value 0 ds in
          if (String.length ds <=? 10)%nat && (n <? 4294967295)%N then Some n else None
      end
  | _ => None
  end.

(** [CreateDataProperty] during [JSON.parse]: a key already there keeps
    its place and takes the new value; a new array index goes among the
    indices in ascending order, ahead of every other key; any other new
    key goes last. *)
Fixpoint replace_own (o : JsonObject) (key : string) (v : JSON) : JsonObject :=
  match o with
  | [] => []
  | (k, v') :: rest =>
      if k =? key then (k, v) :: rest else (k, v') :: replace_own rest key v
  end.

Fixpoint insert_index (i : N) (key : string) (v : JSON) (o : JsonObject) : JsonObject :=
  match o with
  | [] => [(key, v)]
  | (k, v') :: rest =>
      match array_index k with
      | Some j => if (j <? i)%N then (k, v') :: insert_index i key v rest
                  else (key, v) :: o
      | None => (key, v) :: o
      end
  end.

Definition CreateDataProperty (o : JsonObject) (key : string) (v : JSON) : JsonObject :=
  if has_own_property o key then replace_own o key v
  else match array_index key with
       | Some i => insert_index i key v o
       | None => (o ++ [(key, v)])%list
       end.

(** A JSON value at the head of [s], after optional white space. *)
Fixpoint parse_value (fuel : nat) (s : string) : option (JSON * string) :=
  match fuel with
  | O => None
  | S fuel' =>
      match skip_whitespace s with
      | EmptyString => None
      | String c rest as s' =>
          if Ascii.eqb c "n" then option_map (pair JNull) (expect "ull" rest)
          else if Ascii.eqb c "t" then option_map (pair (JBool true)) (expect "rue" rest)
          else if Ascii.eqb c "f" then option_map (pair (JBool false)) (expect "alse" rest)
          else if Ascii.eqb c DQUOTE then
            match parse_string rest with
            | Some (str, r) => Some (JString str, r)
            | None => None
            end
          else if Ascii.eqb c "[" then
            match skip_whitespace rest with
            | String "]" r => Some (JArray [], r)
            | r => parse_elements fuel' [] r
            end
          else if Ascii.eqb c "{" then
            match skip_whitespace rest with
            | String "}" r => Some (JObject [], r)
            | r => parse_members fuel' [] r
            end
          else
            match parse_number s' with
            | Some (literal, r) => Some (JNumber (StringToNumber literal), r)
            | None => None
            end
      end
  end

with parse_elements (fuel : nat) (acc : list JSON) (s : string) : option (JSON * string) :=
  match fuel with
  | O => None
  | S fuel' =>
      match parse_value fuel' s with
      | Some (v, r) =>
          match skip_whitespace r with
          | String "," r' => parse_elements fuel' (acc ++ [v])%list r'
          | String "]" r' => Some (JArray (acc ++ [v])%list, r')
          | _ => None
          end
      | None => None
      end
  end

with parse_members (fuel : nat) (acc : JsonObject) (s : string) : option (JSON * string) :=
  match fuel with
  | O => None
  | S fuel' =>
      match skip_whitespace s with
      | String c rest =>
          if Ascii.eqb c DQUOTE then
            match parse_string rest with
            | Some (key, r) =>
                match skip_whitespace r with
                | String ":" r1 =>
                    match parse_value fuel' r1 with
                    | Some (v, r2) =>
                        let acc' := CreateDataProperty acc key v in
                        match skip_whitespace r2 with
                        | String "," r3 => parse_members fuel' acc' r3
                        | String "}" r3 => Some (JObject acc', r3)
                        | _ => None
                        end
                    | None => None
                    end
                | _ => None
                end
            | None => None
            end
          else None
      | EmptyString => None
      end
  end.

(** [JSON.parse(text)] without reviver. *)
Definition JSON_parse (text : string) : outcome JSON :=
  match parse_value (2 * String.length text + 2) text with
  | Some (v, rest) =>
      match skip_whitespace rest with
      | EmptyString => Ok v
      | String _ _ => Throw SyntaxError
      end
  | None => Throw SyntaxError
  end.

End Parse.

End Js.

(** ** The file system and the console *)
Module Io.
Import Js.

Inductive log_entry : Type :=
| ConsoleLog (message : string)
| ConsoleError (message : string) (error : exn).

(** The part of the world the converter touches: the text of the files
    that can be read, the paths that can be written, and what was printed
    so far. *)
Record World : Type := {
  files : string -> option string;
  writable : string -> bool;
  console : list log_entry
}.

(** A computation that reads and changes the world and may throw. *)
Definition IO (A : Type) : Type := World -> outcome A * World.

Definition ret {A : Type} (a : A) : IO A := fun w => (Ok a, w).

Definition bindIO {A B : Type} (m : IO A) (k : A -> IO B) : IO B :=
  fun w =>
    match m w with
    | (Ok a, w') => k a w'
    | (Throw e, w') => (Throw e, w')
    end.

(** A pure evaluation inside [IO]. *)
Definition lift {A : Type} (o : outcome A) : IO A := fun w => (o, w).

(** [try { body } catch (error) { handler }]. *)
Definition try_catch {A : Type} (body : IO A) (handler : exn -> IO A) : IO A :=
  fun w =>
    match body w with
    | (Ok a, w') => (Ok a, w')
    | (Throw e, w') => handler e w'
    end.

Declare Scope io_scope.
Delimit Scope io_scope with io.
Notation "x <- m ;; k" := (bindIO m (fun x => k))
  (at level 61, m at next level, right associativity) : io_scope.
Notation "m ;; k" := (bindIO m (fun _ => k))
  (at level 61, right associativity) : io_scope.

(** [fs.readFile(path, "utf-8")]. *)
Definition fs_readFile (path : string) : IO string :=
  fun w =>
    match files w path with
    | Some data => (Ok data, w)
    | None => (Throw (SystemError "ENOENT"), w)
    end.

(** [fs.writeFile(path, data, "utf-8")]: the file is replaced as a whole,
    or nothing is written. *)
Definition fs_writeFile (path data : string) : IO unit :=
  fun w =>
    if writable w path then
      (Ok tt, {| files := fun p => if p =? path then Some data else files w p;
                 writable := writable w;
                 console := console w |})
    else (Throw (SystemError "EACCES"), w).

Definition print (entry : log_entry) : IO unit :=
  fun w => (Ok tt, {| files := files w;
                      writable := writable w;
                      console := console w ++ [entry] |}).

Definition console_log (message : string) : IO unit := print (ConsoleLog message).

Definition console_error (message : string) (error : exn) : IO unit :=
  print (ConsoleError message error).

End Io.

(** ** [src/utils/csv.ts] *)
Module Csv.
Import Js Io.
Local Open Scope js_scope.

Section Converter.
Context {H : Host}.

(** [type JsonRecord = { [key: string]: any }], as [JSON.parse] builds it. *)
Definition JsonRecord : Type := JsonObject.

(** The comparator of the sort, [(a, b) => b.rollNo.localeCompare(a.rollNo)].
    Only a string has a [localeCompare] method; its argument is converted
    with [ToString]. *)
Definition byRollNoDescending (a b : JsonRecord) : outcome Z :=
  match Get b "rollNo" with
  | Json (JString s) =>
      that <- ToString (Get a "rollNo") ;;
      Ok (localeCompare s that)
  | _ => Throw TypeError
  end.

(** [Object.keys(jsonData[0]).filter(key => key !== "SGPA" && key !== "instituteName")]. *)
Definition baseHeadersOf (first : JsonRecord) : list string :=
  filter (fun key => negb (key =? "SGPA") && negb (key =? "instituteName"))
         (Object_keys first).

(** [Array.from({ length: 8 }, (_, i) => `SGPA_sem${i + 1}`)]. *)
Definition sgpaHeaders : list string :=
  map (fun i => "SGPA_sem" ++ nat_toString (i + 1)) (seq 0 8).

(** [header.split("_")[1]], used as a property key. *)
Definition semesterOf (header : string) : string :=
  match nth_error (split "_" header) 1 with
  | Some semester => semester
  | None => "undefined"
  end.

Definition emptyText : value := Json (JString "").

(** [JSON.stringify(row[header] || "")]. *)
Definition baseCell (row : JsonRecord) (header : string) : option string :=
  JSON_stringify (or_else (Get row header) emptyText).

(** [JSON.stringify(row.SGPA?.[semester] || "")]. *)
Definition sgpaCell (row : JsonRecord) (header : string) : option string :=
  let semester := semesterOf header in
  JSON_stringify (or_else (optional_member (Get row "SGPA") semester) emptyText).

(** [JSON.stringify(row.instituteName || "")]. *)
Definition instituteNameCell (row : JsonRecord) : option string :=
  JSON_stringify (or_else (Get row "instituteName") emptyText).

(** The cells of one row, in column order. *)
Definition rowCells (baseHeaders : list string) (row : JsonRecord) : list (option string) :=
  let rowData := map (baseCell row) baseHeaders in
  let sgpaData := map (sgpaCell row) sgpaHeaders in
  let instituteNameData := instituteNameCell row in
  (rowData ++ sgpaData ++ [instituteNameData])%list.

(** The body of [jsonData.map((row) => ...)]. *)
Definition csvRow (baseHeaders : list string) (row : JsonRecord) : string :=
  Array_join "," (rowCells baseHeaders row).

Definition headersOf (first : JsonRecord) : list string :=
  (baseHeadersOf first ++ sgpaHeaders ++ ["instituteName"])%list.

(** The text assembled from the sorted records. *)
Definition render (first : JsonRecord) (sorted : list JsonRecord) : string :=
  let baseHeaders := baseHeadersOf first in
  let csvRows := map (csvRow baseHeaders) sorted in
  join LF (join "," (headersOf first) :: csvRows).

Definition jsonToCsv (jsonData : list JsonRecord) : outcome string :=
  if (List.length jsonData =? 0)%nat then Ok ""
  else
    sorted <- Array_sort byRollNoDescending jsonData ;;
    match sorted with
    | first :: _ => Ok (render first sorted)
    | [] => Throw TypeError
    end.

(** The elements of a parsed array seen at the declared type
    [JsonRecord[]]: they must all be objects. *)
Fixpoint asRecords (items : list JSON) : option (list JsonRecord) :=
  match items with
  | [] => Some []
  | JObject props :: rest => option_map (cons props) (asRecords rest)
  | _ :: _ => None
  end.

(** The call [jsonToCsv(jsonData)] on whatever [JSON.parse] returned; the
    annotation [JsonRecord[]] is not checked at run time.
    - [null.length] throws;
    - a number or a boolean has no [length] and no [sort];
    - a string of length 0 passes the first line, any other string has no
      [sort];
    - an object passes the first line when its own [length] is the number
      zero, and has no callable [sort] otherwise;
    - an array of objects is the declared case; an array with another
      element is left to the engine. *)
Definition call_jsonToCsv (parsed : JSON) : outcome string :=
  match parsed with
  | JNull => Throw TypeError
  | JBool _ => Throw TypeError
  | JNumber _ => Throw TypeError
  | JString s => if s =? "" then Ok "" else Throw TypeError
  | JObject props =>
      match own_property props "length" with
      | Some (JNumber n) => if Number_toBoolean n then Throw TypeError else Ok ""
      | _ => Throw TypeError
      end
  | JArray items =>
      match asRecords items with
      | Some jsonData => jsonToCsv jsonData
      | None => dynamic_jsonToCsv parsed
      end
  end.

Local Open Scope io_scope.

Definition convertJsonFileToCsv (inputFilePath outputFilePath : string) : IO unit :=
  try_catch
    (data <- fs_readFile inputFilePath ;;
     jsonData <- lift (JSON_parse data) ;;
     csvData <- lift (call_jsonToCsv jsonData) ;;
     fs_writeFile outputFilePath csvData ;;
     console_log ("CSV file has been saved to " ++ outputFilePath))
    (fun error => console_error "Error converting JSON to CSV:" error).

End Converter.
End Csv.

(** ** A reference engine

    Numbers are exact decimals [(-1)^neg * mant * 10^exp], printed by the
    rules of [Number::toString]; on literals of at most fifteen
    significant digits whose magnitude a double holds they print as V8
    prints the double.  Strings are collated by code, byte after byte.
    The engine is only run on arrays of objects and rejects an array with
    another element. *)
Module RefHost.
Import Js.

Record decimal : Type := {
  dec_neg : bool;
  dec_mant : N;
  dec_exp : Z
}.

Definition digits_of_N (n : N) : string := NilZero.string_of_uint (N.to_uint n).

(** The digits of [s] without its trailing zeros, and how many there were. *)
Fixpoint strip_trailing_zeros (s : string) : string * nat :=
  match s with
  | EmptyString => ("", O)
  | String c rest =>
      let (rest', zeros) := strip_trailing_zeros rest in
      match rest' with
      | EmptyString => if Ascii.eqb c "0" then ("", S zeros) else (String c "", zeros)
      | String _ _ => (String c rest', zeros)
      end
  end.

Fixpoint zeros (n : nat) : string :=
  match n with
  | O => ""
  | S n' => String "0" (zeros n')
  end.

(** [Number::toString] in radix 10. *)
Definition decimal_toString (d : decimal) : string :=
  if (dec_mant d =? 0)%N then "0"
  else
    let (digits, z) := strip_trailing_zeros (digits_of_N (dec_mant d)) in
    let k := Z.of_nat (String.length digits) in
    let n := (k + dec_exp d + Z.of_nat z)%Z in
    let body :=
      if ((k <=? n) && (n <=? 21))%Z then digits ++ zeros (Z.to_nat (n - k))
      else if ((0 <? n) && (n <=? 21))%Z then
        substring 0 (Z.to_nat n) digits ++ "." ++
        substring (Z.to_nat n) (Z.to_nat (k - n)) digits
      else if ((-6 <? n) && (n <=? 0))%Z then "0." ++ zeros (Z.to_nat (- n)) ++ digits
      else
        let e := (n - 1)%Z in
        let exponent := (if (e <? 0)%Z then "-" else "+") ++ digits_of_N (Z.to_N (Z.abs e)) in
        if (k =? 1)%Z then digits ++ "e" ++ exponent
        else substring 0 1 digits ++ "." ++ substring 1 (Z.to_nat (k - 1)) digits
               ++ "e" ++ exponent
    in (if dec_neg d then "-" else "") ++ body.

(** The decimal a JSON numeric literal denotes. *)
Definition decimal_of_literal (literal : string) : decimal :=
  let (neg, s1) :=
    match literal with
    | String "-" r => (true, r)
    | _ => (false, literal)
    end in
  let (int_part, s2) := take_digits s1 in
  let (frac_part, s3) :=
    match s2 with
    | String "." r => take_digits r
    | _ => ("", s2)
    end in
  let exponent :=
    match s3 with
    | String _ (String "-" r) => (- Z.of_N (digits_value 0 (fst (take_digits r))))%Z
    | String _ (String "+" r) => Z.of_N (digits_value 0 (fst (take_digits r)))
    | String _ r => Z.of_N (digits_value 0 (fst (take_digits r)))
    | EmptyString => 0%Z
    end in
  {| dec_neg := neg;
     dec_mant := digits_value 0 (int_part ++ frac_part);
     dec_exp := (exponent - Z.of_nat (String.length frac_part))%Z |}.

(** Collation by code. *)
Definition compare_by_code (s that : string) : Z :=
  match String.compare s that with
  | Lt => (-1)%Z
  | Eq => 0%Z
  | Gt => 1%Z
  end.

#[export] Instance engine : Host := {|
  number := decimal;
  Number_toString := decimal_toString;
  Number_isFinite := fun _ => true;
  Number_toBoolean := fun d => negb (dec_mant d =? 0)%N;
  StringToNumber := decimal_of_literal;
  localeCompare := compare_by_code;
  dynamic_jsonToCsv := fun _ => Throw TypeError
|}.

End RefHost.


(** ** The vocabulary of the properties *)
Module Props.
Import Js Io Csv.

Definition CR : ascii := "013"%char.
Definition NL : ascii := "010"%char.

(** How often a character occurs in a text. *)
Fixpoint occurrences (c : ascii) (s : string) : nat :=
  match s with
  | EmptyString => O
  | String a rest => (if Ascii.eqb a c then 1 else 0) + occurrences c rest
  end.

(** The last character of a text. *)
Fixpoint last_char (s : string) : option ascii :=
  match s with
  | EmptyString => None
  | String a EmptyString => Some a
  | String _ rest => last_char rest
  end.

(** [suffix] ends [s]. *)
Definition ends_with (suffix s : string) : Prop := exists before, s = before ++ suffix.

(** A text written with apostrophes in place of double quotes. *)
Fixpoint text (s : string) : string :=
  match s with
  | EmptyString => ""
  | String c rest => String (if Ascii.eqb c "'" then DQUOTE else c) (text rest)
  end.

(** A text of white space only, as [JSON.parse] skips it. *)
Fixpoint blank (s : string) : bool :=
  match s with
  | EmptyString => true
  | String c rest => is_whitespace c && blank rest
  end.

Section WithHost.
Context {H : Host}.

(** The sort key of a record of the data model: its text [rollNo]. *)
Definition rollNo (r : JsonRecord) : option string :=
  match own_property r "rollNo" with
  | Some (JString s) => Some s
  | _ => None
  end.

Definition hasTextRollNo (r : JsonRecord) : Prop := exists s, rollNo r = Some s.

(** [localeCompare] orders: swapping the arguments swaps the sign. *)
Definition consistent_collation : Prop :=
  forall s t, Z.sgn (localeCompare s t) = (- Z.sgn (localeCompare t s))%Z.

(** The text the comparator reads off any record, and the order the
    sort leaves between neighbours. *)
Definition sortKey (r : JsonRecord) : outcome string := ToString (Get r "rollNo").

Definition keyDescending (p q : JsonRecord) : Prop :=
  exists kp kq, sortKey p = Ok kp /\ sortKey q = Ok kq /\ (0 <= localeCompare kp kq)%Z.

(** Numerals hold no line break. *)
Definition numerals_on_one_line : Prop :=
  forall n, occurrences NL (Number_toString n) = O /\ occurrences CR (Number_toString n) = O.

(** [key] names a member that every object inherits from [Object.prototype]. *)
Definition inherited (key : string) : bool :=
  (key =? "__proto__") || existsb (String.eqb key) Object_prototype_methods.

(** A field holds a value that [||] replaces. *)
Definition falsy (j : JSON) : Prop := ToBoolean (Json j) = false.

(** The digits that name the semesters. *)
Definition semesterDigits : list string := ["1"; "2"; "3"; "4"; "5"; "6"; "7"; "8"]%string.

(** The empty quoted cell: two double quotes. *)
Definition emptyCell : string := String DQUOTE (String DQUOTE "").

(** The first argument of [console.error] in the handler. *)
Definition failureMessage : string := "Error converting JSON to CSV:".

(** The world after one more console entry. *)
Definition logged (w : World) (entry : log_entry) : World :=
  {| files := files w; writable := writable w; console := console w ++ [entry] |}.

(** The world after [path] was written. *)
Definition written (w : World) (path data : string) : World :=
  {| files := fun p => if p =? path then Some data else files w p;
     writable := writable w;
     console := console w |}.

(** [localeCompare] is transitive. *)
Definition transitive_collation : Prop :=
  forall s t u,
    (0 <= localeCompare s t)%Z -> (0 <= localeCompare t u)%Z -> (0 <= localeCompare s u)%Z.

(** [p] may stand before [q]: the [rollNo] of [p] is not smaller. *)
Definition rollNoDescending (p q : JsonRecord) : Prop :=
  exists s t, rollNo p = Some s /\ rollNo q = Some t /\ (0 <= localeCompare s t)%Z.

(** The [rollNo] of [r] compares equal to [k]. *)
Definition sameRollNo (k : string) (r : JsonRecord) : bool :=
  match rollNo r with
  | Some s => (localeCompare s k =? 0)%Z
  | None => false
  end.

(** A parse result that is no array and still passes the test
    [jsonData.length === 0]: the empty string, or an object whose own
    [length] is a zero. *)
Definition passesLengthCheck (parsed : JSON) : bool :=
  match parsed with
  | JString s => s =? ""
  | JObject props =>
      match own_property props "length" with
      | Some (JNumber n) => negb (Number_toBoolean n)
      | _ => false
      end
  | _ => false
  end.

Definition isArray (parsed : JSON) : bool :=
  match parsed with
  | JArray _ => true
  | _ => false
  end.

(** Every object inside a value has pairwise distinct keys. *)
#[local] Unset Elimination Schemes.
Inductive distinct_keys : JSON -> Prop :=
| distinct_null : distinct_keys JNull
| distinct_bool (b : bool) : distinct_keys (JBool b)
| distinct_number (n : number) : distinct_keys (JNumber n)
| distinct_string (s : string) : distinct_keys (JString s)
| distinct_array (items : list JSON) :
    Forall distinct_keys items -> distinct_keys (JArray items)
| distinct_object (props : JsonObject) :
    NoDup (map fst props) ->
    Forall (fun kv => distinct_keys (snd kv)) props ->
    distinct_keys (JObject props).
#[local] Set Elimination Schemes.

(** The two records of the scenario of the specification; [n] is the
    number read from the literal 8.5. *)
Definition recordA1 (n : number) : JsonRecord :=
  [ ("rollNo", JString "A1");
    ("SGPA", JObject [("sem1", JNumber n)]);
    ("instituteName", JString "X") ].

Definition recordA3 : JsonRecord :=
  [ ("rollNo", JString "A3");
    ("SGPA", JObject []);
    ("instituteName", JString "Y") ].

Definition scenarioHeader : string :=
  "rollNo,SGPA_sem1,SGPA_sem2,SGPA_sem3,SGPA_sem4,SGPA_sem5,SGPA_sem6,SGPA_sem7,SGPA_sem8,instituteName".

End WithHost.
End Props.

(** ** Inputs for the reference engine *)
Module Examples.
Import Js Io Csv Props.

Definition d85 : RefHost.decimal :=
  {| RefHost.dec_neg := false; RefHost.dec_mant := 85; RefHost.dec_exp := -1 |}.

Definition zero : RefHost.decimal :=
  {| RefHost.dec_neg := false; RefHost.dec_mant := 0; RefHost.dec_exp := 0 |}.

(** The input of the scenario, as the text of a file. *)
Definition scenarioText : string :=
  text "[{'rollNo':'A1','SGPA':{'sem1':8.5},'instituteName':'X'},{'rollNo':'A3','SGPA':{},'instituteName':'Y'}]".

(** A world with one readable file, where every path can be written. *)
Definition worldWith (path content : string) : World :=
  {| files := fun p => if p =? path then Some content else None;
     writable := fun _ => true;
     console := [] |}.

(** A record with a numeric field next to its [rollNo]. *)
Definition graded : @JsonRecord RefHost.engine :=
  [ ("rollNo", JString "A1"); ("cgpa", JNumber d85) ].

(** A record whose first semester holds the grade 0. *)
Definition failedFirstSemester : @JsonRecord RefHost.engine :=
  [ ("rollNo", JString "A1"); ("SGPA", JObject [("sem1", JNumber zero)]) ].

(** A record with a field named like a method of every object, holding a
    falsy value, and a record without that field. *)
Definition withToString : @JsonRecord RefHost.engine :=
  [ ("rollNo", JString "B"); ("toString", JNumber zero) ].

Definition withoutToString : @JsonRecord RefHost.engine :=
  [ ("rollNo", JString "A") ].

(** A record with a line break inside a field name. *)
Definition brokenName : string :=
  String "x" (String "013" (String "010" "y")).

Definition withBrokenName : @JsonRecord RefHost.engine :=
  [ ("rollNo", JString "A1"); (brokenName, JString "v") ].

(** What [jsonToCsv] gives for [withBrokenName]. *)
Definition brokenOutput : string :=
  join LF
    [ ("rollNo," ++ brokenName ++
       ",SGPA_sem1,SGPA_sem2,SGPA_sem3,SGPA_sem4,SGPA_sem5,SGPA_sem6,SGPA_sem7,SGPA_sem8,instituteName")%string;
      text "'A1','v','','','','','','','','',''" ].

(** The text of a file with two records that have no field at all. *)
Definition twoEmptyRecords : string := "[{},{}]".

(** The first record of the scenario with a field that is no column and a
    ninth semester. *)
Definition recordA1Extra : @JsonRecord RefHost.engine :=
  [ ("rollNo", JString "A1");
    ("SGPA", JObject [("sem1", JNumber d85); ("sem9", JNumber d85)]);
    ("instituteName", JString "X");
    ("remark", JString "late") ].

(** Two records without any field. *)
Definition bareRecords : list (@JsonRecord RefHost.engine) := [[]; []].

(** The text of a file that holds an object with a [length] of zero. *)
Definition lengthZeroText : string := text "{'length':0}".

(** Two records with the same [rollNo]. *)
Definition firstOfTwins : @JsonRecord RefHost.engine :=
  [ ("rollNo", JString "A1"); ("name", JString "first") ].

Definition secondOfTwins : @JsonRecord RefHost.engine :=
  [ ("rollNo", JString "A1"); ("name", JString "second") ].

End Examples.

(** ** Facts about the sort *)
Import Js Io Csv Props.
Local Open Scope js_scope.
Local Open Scope list_scope.

Section SortFacts.
Context {A : Type}.
Variable comparefn : A -> A -> outcome Z.

Lemma insert_Permutation (x : A) (placed l : list A) :
  insert comparefn x placed = Ok l -> Permutation (x :: placed) l.
Proof.
  revert l. induction placed as [|y rest IH]; simpl; intros l Hl.
  - inversion Hl. apply Permutation_refl.
  - destruct (comparefn x y) as [c|e]; simpl in Hl; [|discriminate].
    destruct (c <? 0)%Z.
    + inversion Hl. apply Permutation_refl.
    + destruct (insert comparefn x rest) as [rest'|e] eqn:Hrest; simpl in Hl; [|discriminate].
      inversion Hl; subst l.
      apply perm_trans with (y :: x :: rest); [apply perm_swap|].
      apply perm_skip. apply IH. reflexivity.
Qed.

Lemma sort_from_Permutation (pending placed l : list A) :
  sort_from comparefn placed pending = Ok l -> Permutation (placed ++ pending) l.
Proof.
  revert placed l. induction pending as [|x rest IH]; simpl; intros placed l Hl.
  - inversion Hl. rewrite app_nil_r. apply Permutation_refl.
  - destruct (insert comparefn x placed) as [placed'|e] eqn:Hins; simpl in Hl; [|discriminate].
    apply IH in Hl. apply insert_Permutation in Hins.
    apply perm_trans with (placed' ++ rest); [|exact Hl].
    apply perm_trans with ((x :: placed) ++ rest).
    + apply Permutation_sym. apply Permutation_middle.
    + apply Permutation_app_tail. exact Hins.
Qed.

Lemma Array_sort_Permutation (l sorted : list A) :
  Array_sort comparefn l = Ok sorted -> Permutation l sorted.
Proof. intro Hs. apply sort_from_Permutation in Hs. exact Hs. Qed.

(** What a comparison tells about the order [precedes]. *)
Variable precedes : A -> A -> Prop.
Hypothesis negative_precedes :
  forall x y c, comparefn x y = Ok c -> (c < 0)%Z -> precedes x y.
Hypothesis other_follows :
  forall x y c, comparefn x y = Ok c -> (0 <= c)%Z -> precedes y x.

Lemma insert_HdRel (z x : A) (placed l : list A) :
  insert comparefn x placed = Ok l ->
  precedes z x -> HdRel precedes z placed -> HdRel precedes z l.
Proof.
  destruct placed as [|y rest]; simpl; intros Hl Hzx Hz.
  - inversion Hl. constructor. exact Hzx.
  - destruct (comparefn x y) as [c|e]; simpl in Hl; [|discriminate].
    destruct (c <? 0)%Z.
    + inversion Hl. constructor. exact Hzx.
    + destruct (insert comparefn x rest) as [rest'|e]; simpl in Hl; [|discriminate].
      inversion Hl. constructor. inversion Hz. assumption.
Qed.

Lemma insert_Sorted (x : A) (placed l : list A) :
  insert comparefn x placed = Ok l ->
  Sorted precedes placed -> Sorted precedes l.
Proof.
  revert l. induction placed as [|y rest IH]; simpl; intros l Hl Hs.
  - inversion Hl. repeat constructor.
  - destruct (comparefn x y) as [c|e] eqn:Hc; simpl in Hl; [|discriminate].
    destruct (c <? 0)%Z eqn:Hneg.
    + inversion Hl. constructor; [exact Hs|]. constructor.
      apply negative_precedes with c; [exact Hc|]. apply Z.ltb_lt. exact Hneg.
    + destruct (insert comparefn x rest) as [rest'|e] eqn:Hrest; simpl in Hl; [|discriminate].
      inversion Hl; subst l. inversion Hs as [|? ? Hrs Hhd]; subst.
      constructor.
      * apply IH; [reflexivity|exact Hrs].
      * apply insert_HdRel with x rest; [exact Hrest| |exact Hhd].
        apply other_follows with c; [exact Hc|]. apply Z.ltb_ge. exact Hneg.
Qed.

Lemma sort_from_Sorted (pending placed l : list A) :
  sort_from comparefn placed pending = Ok l ->
  Sorted precedes placed -> Sorted precedes l.
Proof.
  revert placed l. induction pending as [|x rest IH]; simpl; intros placed l Hl Hs.
  - inversion Hl; subst. exact Hs.
  - destruct (insert comparefn x placed) as [placed'|e] eqn:Hins; simpl in Hl; [|discriminate].
    apply IH with placed'; [exact Hl|]. apply insert_Sorted with x placed; assumption.
Qed.

Lemma Array_sort_Sorted (l sorted : list A) :
  Array_sort comparefn l = Ok sorted -> Sorted precedes sorted.
Proof. intro Hs. apply sort_from_Sorted with l []; [exact Hs|constructor]. Qed.

(** The sort returns when the comparator returns on the elements. *)
Variable comparable : A -> Prop.
Hypothesis comparefn_returns :
  forall x y, comparable x -> comparable y -> exists c, comparefn x y = Ok c.

Lemma insert_returns (x : A) (placed : list A) :
  comparable x -> Forall comparable placed -> exists l, insert comparefn x placed = Ok l.
Proof.
  intros Hx. induction placed as [|y rest IH]; simpl; intros Hp.
  - eexists. reflexivity.
  - inversion Hp as [|? ? Hy Hrest]; subst.
    destruct (comparefn_returns x y Hx Hy) as [c Hc]. rewrite Hc. simpl.
    destruct (c <? 0)%Z; [eexists; reflexivity|].
    destruct (IH Hrest) as [l Hl]. rewrite Hl. simpl. eexists. reflexivity.
Qed.

Lemma sort_from_returns (pending placed : list A) :
  Forall comparable placed -> Forall comparable pending ->
  exists l, sort_from comparefn placed pending = Ok l.
Proof.
  revert placed. induction pending as [|x rest IH]; simpl; intros placed Hp Hq.
  - eexists. reflexivity.
  - inversion Hq as [|? ? Hx Hrest]; subst.
    destruct (insert_returns x placed Hx Hp) as [placed' Hins]. rewrite Hins. simpl.
    apply IH; [|exact Hrest].
    apply insert_Permutation in Hins.
    apply Forall_forall. intros z Hz.
    apply Permutation_sym in Hins. apply (Permutation_in _ Hins) in Hz.
    destruct Hz as [Hz|Hz]; [subst; exact Hx|].
    rewrite Forall_forall in Hp. apply Hp. exact Hz.
Qed.

Lemma Array_sort_returns (l : list A) :
  Forall comparable l -> exists sorted, Array_sort comparefn l = Ok sorted.
Proof. intro Hl. apply sort_from_returns; [constructor|exact Hl]. Qed.

End SortFacts.

(** ** Facts about texts *)

Lemma occurrences_app (c : ascii) (a b : string) :
  occurrences c (a ++ b)%string = occurrences c a + occurrences c b.
Proof. induction a as [|x a IH]; simpl; [reflexivity|]. rewrite IH. lia. Qed.

Lemma append_nil_r (s : string) : (s ++ "")%string = s.
Proof. induction s as [|c s IH]; simpl; [reflexivity|]. rewrite IH. reflexivity. Qed.

Lemma append_assoc (a b c : string) : ((a ++ b) ++ c)%string = (a ++ (b ++ c))%string.
Proof. induction a as [|x a IH]; simpl; [reflexivity|]. rewrite IH. reflexivity. Qed.

Lemma length_append (a b : string) :
  String.length (a ++ b)%string = String.length a + String.length b.
Proof. induction a as [|x a IH]; simpl; [reflexivity|]. rewrite IH. reflexivity. Qed.

Lemma last_char_app (a b : string) :
  b <> ""%string -> last_char (a ++ b)%string = last_char b.
Proof.
  intro Hb. induction a as [|x a IH]; simpl; [reflexivity|].
  rewrite <- IH. destruct (a ++ b)%string eqn:Hab; [|reflexivity].
  destruct a; simpl in Hab; [contradiction|discriminate].
Qed.

(** [join] of a list in two parts. *)
Lemma join_cons (sep x : string) (l : list string) :
  l <> [] -> join sep (x :: l) = (x ++ sep ++ join sep l)%string.
Proof. destruct l; [contradiction|reflexivity]. Qed.

Lemma join_app (sep : string) (l1 l2 : list string) :
  l1 <> [] -> l2 <> [] ->
  join sep (l1 ++ l2) = (join sep l1 ++ sep ++ join sep l2)%string.
Proof.
  intros H1 H2. induction l1 as [|x l1 IH]; [contradiction|].
  destruct l1 as [|y l1].
  - simpl app. apply join_cons. exact H2.
  - change ((x :: y :: l1) ++ l2) with (x :: ((y :: l1) ++ l2)).
    rewrite join_cons by discriminate. rewrite IH by discriminate.
    rewrite (join_cons sep x (y :: l1)) by discriminate.
    rewrite !append_assoc. reflexivity.
Qed.

Lemma Sorted_adjacent {A : Type} (R : A -> A -> Prop) (l : list A) :
  Sorted R l ->
  forall i p q, nth_error l i = Some p -> nth_error l (S i) = Some q -> R p q.
Proof.
  induction 1 as [|x l Hs IH Hhd]; intros i p q Hp Hq.
  - destruct i; discriminate.
  - destruct i as [|i].
    + simpl in Hp, Hq. inversion Hp; subst. destruct l as [|y l]; [discriminate|].
      simpl in Hq. inversion Hq; subst. inversion Hhd. assumption.
    + simpl in Hp, Hq. apply IH with i; assumption.
Qed.

(** Induction on JSON values, through arrays and objects. *)
Lemma json_induction {number : Type} (P : json number -> Prop) :
  P JNull ->
  (forall b, P (JBool b)) ->
  (forall n, P (JNumber n)) ->
  (forall s, P (JString s)) ->
  (forall items, Forall P items -> P (JArray items)) ->
  (forall props, Forall (fun kv => P (snd kv)) props -> P (JObject props)) ->
  forall j, P j.
Proof.
  intros Hnull Hbool Hnum Hstr Harr Hobj.
  exact (fix go (j : json number) : P j :=
           match j with
           | JNull => Hnull
           | JBool b => Hbool b
           | JNumber n => Hnum n
           | JString s => Hstr s
           | JArray items =>
               Harr items
                 ((fix each (l : list (json number)) : Forall P l :=
                     match l with
                     | [] => Forall_nil P
                     | x :: rest => Forall_cons x (go x) (each rest)
                     end) items)
           | JObject props =>
               Hobj props
                 ((fix each (l : list (string * json number))
                     : Forall (fun kv => P (snd kv)) l :=
                     match l with
                     | [] => Forall_nil _
                     | kv :: rest => Forall_cons kv (go (snd kv)) (each rest)
                     end) props)
           end).
Qed.

(** *** Control characters never reach the encoded text *)

Lemma eqb_control (x c : ascii) :
  (32 <= N_of_ascii x)%N -> (N_of_ascii c < 32)%N -> Ascii.eqb x c = false.
Proof. intros Hx Hc. apply Ascii.eqb_neq. intros ->. lia. Qed.

Lemma hex_digit_printable (n : N) : (n < 16)%N -> (32 <= N_of_ascii (hex_digit n))%N.
Proof.
  intro Hn.
  assert (Hcases : In n [0; 1; 2; 3; 4; 5; 6; 7; 8; 9; 10; 11; 12; 13; 14; 15]%N).
  { destruct n as [|p]; [left; reflexivity|].
    do 4 (destruct p as [p|p|]; try (exfalso; lia); simpl; try tauto). }
  simpl in Hcases.
  repeat (destruct Hcases as [<-|Hcases]; [vm_compute; discriminate|]). contradiction.
Qed.

Lemma nibble_bound (x : N) : (N.land x 15 < 16)%N.
Proof.
  change 15%N with (N.ones 4). rewrite N.land_ones. apply N.mod_lt. discriminate.
Qed.

Lemma occurrences_other (c a : ascii) (rest : string) :
  Ascii.eqb a c = false -> occurrences c (String a rest) = occurrences c rest.
Proof. intro Ha. cbn [occurrences]. rewrite Ha. reflexivity. Qed.

Lemma occurrences_printable (c a : ascii) (rest : string) :
  (N_of_ascii c < 32)%N -> (32 <=? N_of_ascii a)%N = true ->
  occurrences c (String a rest) = occurrences c rest.
Proof.
  intros Hc Ha. apply occurrences_other. apply eqb_control; [|exact Hc].
  apply N.leb_le. exact Ha.
Qed.

Lemma UnicodeEscape_no_control (c : ascii) (cu : N) :
  (N_of_ascii c < 32)%N -> occurrences c (UnicodeEscape cu) = 0.
Proof.
  intro Hc. unfold UnicodeEscape.
  rewrite !(occurrences_printable c) by (exact Hc || reflexivity).
  rewrite !(occurrences_other c) by
    (apply eqb_control; [apply hex_digit_printable, nibble_bound|exact Hc]).
  reflexivity.
Qed.

Lemma quote_chars_no_control_upto (c : ascii) (n : nat) :
  (N_of_ascii c < 32)%N ->
  forall s, String.length s <= n -> occurrences c (quote_chars s) = 0.
Proof.
  intro Hc. induction n as [|n IH]; intros s Hlen.
  - destruct s; [reflexivity|simpl in Hlen; lia].
  - destruct s as [|a rest]; [reflexivity|]. simpl in Hlen.
    assert (Hrest : occurrences c (quote_chars rest) = 0) by (apply IH; lia).
    cbn [quote_chars].
    repeat match goal with
           | |- context [if (N_of_ascii a =? ?k)%N then _ else _] =>
               destruct (N_of_ascii a =? k)%N;
               [rewrite !(occurrences_printable c) by (exact Hc || reflexivity); exact Hrest|]
           end.
    destruct (N_of_ascii a <? 32)%N eqn:Hlow.
    + rewrite occurrences_app, UnicodeEscape_no_control by exact Hc. exact Hrest.
    + assert (Ha : Ascii.eqb a c = false).
      { apply eqb_control; [apply N.ltb_ge; exact Hlow|exact Hc]. }
      destruct rest as [|c1 [|c2 rest']];
        try (rewrite occurrences_other by exact Ha; exact Hrest).
      match goal with
      | |- context [if ?b then _ else _] => destruct b
      end.
      * rewrite occurrences_app, UnicodeEscape_no_control by exact Hc.
        apply IH. simpl in Hlen. lia.
      * rewrite occurrences_other by exact Ha. exact Hrest.
Qed.

Lemma quote_chars_no_control (c : ascii) (s : string) :
  (N_of_ascii c < 32)%N -> occurrences c (quote_chars s) = 0.
Proof. intro Hc. apply quote_chars_no_control_upto with (String.length s); [exact Hc|lia]. Qed.

Lemma QuoteJSONString_no_control (c : ascii) (s : string) :
  (N_of_ascii c < 32)%N -> occurrences c (QuoteJSONString s) = 0.
Proof.
  intro Hc. unfold QuoteJSONString.
  rewrite occurrences_printable by (exact Hc || reflexivity).
  rewrite occurrences_app, quote_chars_no_control by exact Hc.
  rewrite occurrences_printable by (exact Hc || reflexivity). reflexivity.
Qed.

Lemma join_occurrences_0 (c : ascii) (sep : string) (l : list string) :
  occurrences c sep = 0 -> Forall (fun s => occurrences c s = 0) l ->
  occurrences c (join sep l) = 0.
Proof.
  intros Hsep Hl. induction Hl as [|x l Hx Hl IH]; [reflexivity|].
  destruct l as [|y l]; [exact Hx|].
  rewrite join_cons by discriminate. rewrite !occurrences_app. lia.
Qed.

(** ** Facts about the converter *)
Section ConverterFacts.
Context {H : Host}.

Lemma Get_own (r : JsonObject) (key : string) (j : JSON) :
  own_property r key = Some j -> Get r key = Json j.
Proof. intro Ho. unfold Get. rewrite Ho. reflexivity. Qed.

Lemma Get_absent (r : JsonObject) (key : string) :
  own_property r key = None -> inherited key = false -> Get r key = Undefined.
Proof.
  intros Ho Hi. unfold Get. rewrite Ho. unfold inherited in Hi.
  apply orb_false_iff in Hi. destruct Hi as [Hp Hm]. rewrite Hp, Hm. reflexivity.
Qed.

Lemma rollNo_Get (r : JsonRecord) (s : string) :
  rollNo r = Some s -> Get r "rollNo" = Json (JString s).
Proof.
  unfold rollNo. intro Hr. apply Get_own.
  destruct (own_property r "rollNo") as [[| | |t| |]|]; try discriminate.
  inversion Hr. reflexivity.
Qed.

(** On records with a text [rollNo] the comparator is [localeCompare] with
    its arguments swapped. *)
Lemma byRollNoDescending_text (a b : JsonRecord) (sa sb : string) :
  rollNo a = Some sa -> rollNo b = Some sb ->
  byRollNoDescending a b = Ok (localeCompare sb sa).
Proof.
  intros Ha Hb. unfold byRollNoDescending.
  rewrite (rollNo_Get b sb Hb), (rollNo_Get a sa Ha). reflexivity.
Qed.

Lemma byRollNoDescending_inv (x y : JsonRecord) (c : Z) :
  byRollNoDescending x y = Ok c ->
  exists ky kx, Get y "rollNo" = Json (JString ky) /\ sortKey x = Ok kx /\
                c = localeCompare ky kx.
Proof.
  unfold byRollNoDescending, sortKey. intro Hc.
  destruct (Get y "rollNo") as [|[| | |ky| |]| |]; try discriminate.
  destruct (ToString (Get x "rollNo")) as [kx|e]; simpl in Hc; [|discriminate].
  inversion Hc. exists ky, kx. repeat split.
Qed.

Lemma negative_keyDescending (x y : JsonRecord) (c : Z) :
  consistent_collation ->
  byRollNoDescending x y = Ok c -> (c < 0)%Z -> keyDescending x y.
Proof.
  intros Hcoll Hc Hneg. apply byRollNoDescending_inv in Hc.
  destruct Hc as (ky & kx & Hy & Hx & ->).
  exists kx, ky. split; [exact Hx|]. split.
  - unfold sortKey. rewrite Hy. reflexivity.
  - specialize (Hcoll kx ky). lia.
Qed.

Lemma other_keyDescending (x y : JsonRecord) (c : Z) :
  byRollNoDescending x y = Ok c -> (0 <= c)%Z -> keyDescending y x.
Proof.
  intros Hc Hpos. apply byRollNoDescending_inv in Hc.
  destruct Hc as (ky & kx & Hy & Hx & ->).
  exists ky, kx. split; [|split; [exact Hx|exact Hpos]].
  unfold sortKey. rewrite Hy. reflexivity.
Qed.

(** Whenever the sort returns, neighbours are in descending key order. *)
Lemma sort_keyDescending (jsonData sorted : list JsonRecord) :
  consistent_collation ->
  Array_sort byRollNoDescending jsonData = Ok sorted ->
  Sorted keyDescending sorted.
Proof.
  intros Hcoll Hs.
  apply Array_sort_Sorted with byRollNoDescending jsonData; [| |exact Hs].
  - intros x y c. apply negative_keyDescending. exact Hcoll.
  - apply other_keyDescending.
Qed.

Lemma sort_returns (jsonData : list JsonRecord) :
  Forall hasTextRollNo jsonData ->
  exists sorted, Array_sort byRollNoDescending jsonData = Ok sorted.
Proof.
  apply Array_sort_returns. intros x y [sx Hx] [sy Hy].
  exists (localeCompare sy sx). apply byRollNoDescending_text; assumption.
Qed.

(** What [jsonToCsv] returns once the sort has returned. *)
Lemma jsonToCsv_of_sorted (jsonData : list JsonRecord) (first : JsonRecord)
      (rest : list JsonRecord) :
  Array_sort byRollNoDescending jsonData = Ok (first :: rest) ->
  jsonToCsv jsonData = Ok (render first (first :: rest)).
Proof.
  intro Hs. unfold jsonToCsv. destruct jsonData as [|r l].
  - discriminate.
  - change (List.length (r :: l) =? 0)%nat with false. cbv iota.
    rewrite Hs. reflexivity.
Qed.

(** Records of the data model are always converted. *)
Lemma jsonToCsv_returns (jsonData : list JsonRecord) :
  jsonData <> [] -> Forall hasTextRollNo jsonData ->
  exists first rest,
    Array_sort byRollNoDescending jsonData = Ok (first :: rest) /\
    Permutation jsonData (first :: rest) /\
    jsonToCsv jsonData = Ok (render first (first :: rest)).
Proof.
  intros Hne Hall. destruct (sort_returns jsonData Hall) as [sorted Hs].
  pose proof (Array_sort_Permutation _ _ _ Hs) as Hperm.
  destruct sorted as [|first rest].
  - apply Permutation_sym, Permutation_nil in Hperm. contradiction.
  - exists first, rest. split; [exact Hs|]. split; [exact Hperm|].
    apply jsonToCsv_of_sorted. exact Hs.
Qed.

(** *** Cells *)

Lemma or_else_truthy (v d : value) : ToBoolean v = true -> or_else v d = v.
Proof. intro Hv. unfold or_else. rewrite Hv. reflexivity. Qed.

Lemma or_else_falsy (v d : value) : ToBoolean v = false -> or_else v d = d.
Proof. intro Hv. unfold or_else. rewrite Hv. reflexivity. Qed.

Lemma stringify_emptyText : JSON_stringify (or_else Undefined emptyText) = Some emptyCell.
Proof. reflexivity. Qed.

Lemma baseCell_truthy (row : JsonRecord) (header : string) (j : JSON) :
  own_property row header = Some j -> ToBoolean (Json j) = true ->
  baseCell row header = Some (stringify j).
Proof.
  intros Ho Ht. unfold baseCell. rewrite (Get_own _ _ _ Ho), or_else_truthy by exact Ht.
  reflexivity.
Qed.

Lemma baseCell_falsy (row : JsonRecord) (header : string) (j : JSON) :
  own_property row header = Some j -> falsy j -> baseCell row header = Some emptyCell.
Proof.
  intros Ho Hf. unfold baseCell. rewrite (Get_own _ _ _ Ho), or_else_falsy by exact Hf.
  reflexivity.
Qed.

Lemma baseCell_absent (row : JsonRecord) (header : string) :
  own_property row header = None -> inherited header = false ->
  baseCell row header = Some emptyCell.
Proof.
  intros Ho Hi. unfold baseCell. rewrite (Get_absent _ _ Ho Hi). reflexivity.
Qed.

(** The key looked up for the column [SGPA_semK] is [semK]. *)
Lemma sgpaCell_unfold (row : JsonRecord) (k : string) :
  In k semesterDigits ->
  sgpaCell row ("SGPA_sem" ++ k) =
  JSON_stringify (or_else (optional_member (Get row "SGPA") ("sem" ++ k)) emptyText).
Proof.
  intro Hk. unfold semesterDigits in Hk. simpl in Hk.
  repeat (destruct Hk as [<-|Hk]; [reflexivity|]). contradiction.
Qed.

Lemma semester_not_inherited (k : string) :
  In k semesterDigits -> inherited ("sem" ++ k) = false.
Proof.
  intro Hk. unfold semesterDigits in Hk. simpl in Hk.
  repeat (destruct Hk as [<-|Hk]; [reflexivity|]). contradiction.
Qed.

Lemma sgpaCell_truthy (row : JsonRecord) (k : string) (o : JsonObject) (v : JSON) :
  In k semesterDigits ->
  own_property row "SGPA" = Some (JObject o) ->
  own_property o ("sem" ++ k) = Some v -> ToBoolean (Json v) = true ->
  sgpaCell row ("SGPA_sem" ++ k) = Some (stringify v).
Proof.
  intros Hk Hs Hv Ht. rewrite sgpaCell_unfold by exact Hk.
  rewrite (Get_own _ _ _ Hs). unfold optional_member.
  rewrite (Get_own _ _ _ Hv), or_else_truthy by exact Ht. reflexivity.
Qed.

Lemma sgpaCell_falsy (row : JsonRecord) (k : string) (o : JsonObject) (v : JSON) :
  In k semesterDigits ->
  own_property row "SGPA" = Some (JObject o) ->
  own_property o ("sem" ++ k) = Some v -> falsy v ->
  sgpaCell row ("SGPA_sem" ++ k) = Some emptyCell.
Proof.
  intros Hk Hs Hv Hf. rewrite sgpaCell_unfold by exact Hk.
  rewrite (Get_own _ _ _ Hs). unfold optional_member.
  rewrite (Get_own _ _ _ Hv), or_else_falsy by exact Hf. reflexivity.
Qed.

Lemma sgpaCell_no_semester (row : JsonRecord) (k : string) (o : JsonObject) :
  In k semesterDigits ->
  own_property row "SGPA" = Some (JObject o) ->
  own_property o ("sem" ++ k) = None ->
  sgpaCell row ("SGPA_sem" ++ k) = Some emptyCell.
Proof.
  intros Hk Hs Hv. rewrite sgpaCell_unfold by exact Hk.
  rewrite (Get_own _ _ _ Hs). unfold optional_member.
  rewrite (Get_absent _ _ Hv (semester_not_inherited k Hk)). reflexivity.
Qed.

Lemma sgpaCell_no_SGPA (row : JsonRecord) (k : string) :
  In k semesterDigits ->
  own_property row "SGPA" = None ->
  sgpaCell row ("SGPA_sem" ++ k) = Some emptyCell.
Proof.
  intros Hk Hs. rewrite sgpaCell_unfold by exact Hk.
  rewrite (Get_absent _ "SGPA" Hs eq_refl). reflexivity.
Qed.

Lemma sgpaCell_not_a_mapping (row : JsonRecord) (k : string) (j : JSON) :
  In k semesterDigits ->
  own_property row "SGPA" = Some j ->
  (forall o, j <> JObject o) ->
  sgpaCell row ("SGPA_sem" ++ k) = Some emptyCell.
Proof.
  intros Hk Hs Hj. rewrite sgpaCell_unfold by exact Hk.
  rewrite (Get_own _ _ _ Hs).
  destruct j as [| | | | |o]; try reflexivity. destruct (Hj o). reflexivity.
Qed.

Lemma instituteNameCell_truthy (row : JsonRecord) (j : JSON) :
  own_property row "instituteName" = Some j -> ToBoolean (Json j) = true ->
  instituteNameCell row = Some (stringify j).
Proof.
  intros Ho Ht. unfold instituteNameCell.
  rewrite (Get_own _ _ _ Ho), or_else_truthy by exact Ht. reflexivity.
Qed.

Lemma instituteNameCell_falsy (row : JsonRecord) (j : JSON) :
  own_property row "instituteName" = Some j -> falsy j ->
  instituteNameCell row = Some emptyCell.
Proof.
  intros Ho Hf. unfold instituteNameCell.
  rewrite (Get_own _ _ _ Ho), or_else_falsy by exact Hf. reflexivity.
Qed.

Lemma instituteNameCell_absent (row : JsonRecord) :
  own_property row "instituteName" = None -> instituteNameCell row = Some emptyCell.
Proof.
  intro Ho. unfold instituteNameCell. rewrite (Get_absent _ "instituteName" Ho eq_refl).
  reflexivity.
Qed.

(** The columns of a row. *)
Lemma rowCells_columns (baseHeaders : list string) (row : JsonRecord) :
  rowCells baseHeaders row =
  map (baseCell row) baseHeaders ++
  [ sgpaCell row "SGPA_sem1"; sgpaCell row "SGPA_sem2"; sgpaCell row "SGPA_sem3";
    sgpaCell row "SGPA_sem4"; sgpaCell row "SGPA_sem5"; sgpaCell row "SGPA_sem6";
    sgpaCell row "SGPA_sem7"; sgpaCell row "SGPA_sem8" ] ++
  [ instituteNameCell row ].
Proof. reflexivity. Qed.

Lemma rowCells_base (baseHeaders : list string) (row : JsonRecord) (i : nat) (header : string) :
  nth_error baseHeaders i = Some header ->
  nth_error (rowCells baseHeaders row) i = Some (baseCell row header).
Proof.
  intro Hh. unfold rowCells.
  rewrite nth_error_app1.
  - rewrite nth_error_map, Hh. reflexivity.
  - rewrite length_map. apply nth_error_Some. rewrite Hh. discriminate.
Qed.

(** *** Lines *)

Lemma stringify_no_control (c : ascii) :
  (N_of_ascii c < 32)%N ->
  (forall n, occurrences c (Number_toString n) = 0) ->
  forall j : JSON, occurrences c (stringify j) = 0.
Proof.
  intros Hc Hnum.
  assert (Hp : forall a rest, (32 <=? N_of_ascii a)%N = true ->
                 occurrences c (String a rest) = occurrences c rest).
  { intros a rest. apply occurrences_printable. exact Hc. }
  apply json_induction.
  - cbn [stringify]. rewrite !Hp by reflexivity. reflexivity.
  - intros [|]; cbn [stringify]; rewrite !Hp by reflexivity; reflexivity.
  - intro n. cbn [stringify]. destruct (Number_isFinite n); [apply Hnum|].
    rewrite !Hp by reflexivity. reflexivity.
  - intro s. apply QuoteJSONString_no_control. exact Hc.
  - intros items Hitems.
    change (stringify (JArray items))
      with (String "[" (join "," (map stringify items) ++ "]")%string).
    rewrite Hp by reflexivity. rewrite occurrences_app.
    rewrite join_occurrences_0.
    + rewrite Hp by reflexivity. reflexivity.
    + rewrite Hp by reflexivity. reflexivity.
    + apply Forall_map. exact Hitems.
  - intros props Hprops.
    change (stringify (JObject props))
      with (String "{" (join ","
              (map (fun kv => QuoteJSONString (fst kv) ++ ":" ++ stringify (snd kv))%string props)
              ++ "}")%string).
    rewrite Hp by reflexivity. rewrite occurrences_app.
    rewrite join_occurrences_0.
    + rewrite Hp by reflexivity. reflexivity.
    + rewrite Hp by reflexivity. reflexivity.
    + apply Forall_map. apply Forall_impl with (2 := Hprops).
      intros kv Hkv. rewrite !occurrences_app.
      rewrite QuoteJSONString_no_control by exact Hc.
      rewrite Hp by reflexivity. simpl. exact Hkv.
Qed.

Lemma JSON_stringify_no_control (c : ascii) (v : value) :
  (N_of_ascii c < 32)%N ->
  (forall n, occurrences c (Number_toString n) = 0) ->
  occurrences c (match JSON_stringify v with Some s => s | None => "" end) = 0.
Proof.
  intros Hc Hnum. destruct v as [|j|name|]; cbn [JSON_stringify].
  - reflexivity.
  - apply stringify_no_control; assumption.
  - reflexivity.
  - rewrite !(occurrences_printable c) by (exact Hc || reflexivity). reflexivity.
Qed.

Lemma csvRow_no_control (c : ascii) (baseHeaders : list string) (row : JsonRecord) :
  (N_of_ascii c < 32)%N ->
  (forall n, occurrences c (Number_toString n) = 0) ->
  occurrences c (csvRow baseHeaders row) = 0.
Proof.
  intros Hc Hnum. unfold csvRow, Array_join. apply join_occurrences_0.
  - rewrite occurrences_printable by (exact Hc || reflexivity). reflexivity.
  - apply Forall_map. unfold rowCells.
    assert (Hcell : forall v, occurrences c
                      (match JSON_stringify v with Some s => s | None => ""%string end) = 0).
    { intro v. apply JSON_stringify_no_control; assumption. }
    apply Forall_app; split; [|apply Forall_app; split].
    + apply Forall_map, Forall_forall. intros header _. unfold baseCell. apply Hcell.
    + apply Forall_map, Forall_forall. intros header _. unfold sgpaCell. apply Hcell.
    + constructor; [|constructor]. unfold instituteNameCell. apply Hcell.
Qed.

Lemma join_length (sep : string) (l : list string) :
  (List.length l - 1) * String.length sep <= String.length (join sep l).
Proof.
  induction l as [|x l IH]; [simpl; lia|].
  destruct l as [|y l]; [simpl; lia|].
  rewrite join_cons by discriminate. rewrite !length_append.
  simpl List.length in *. lia.
Qed.

Lemma csvRow_not_empty (baseHeaders : list string) (row : JsonRecord) :
  csvRow baseHeaders row <> ""%string.
Proof.
  intro Hempty.
  pose proof (join_length ","
    (map (fun x : option string => match x with Some s => s | None => ""%string end)
         (rowCells baseHeaders row))) as Hlen.
  unfold csvRow, Array_join in Hempty. rewrite Hempty in Hlen.
  rewrite length_map in Hlen. unfold rowCells in Hlen.
  rewrite !length_app, !length_map in Hlen. simpl in Hlen. lia.
Qed.

Lemma last_char_occurs (c : ascii) (s : string) :
  last_char s = Some c -> 1 <= occurrences c s.
Proof.
  induction s as [|a s IH]; [discriminate|].
  destruct s as [|b s].
  - cbn [last_char occurrences]. intro Ha. inversion Ha. rewrite Ascii.eqb_refl. lia.
  - intro Hl. change (last_char (String a (String b s))) with (last_char (String b s)) in Hl.
    apply IH in Hl. cbn [occurrences] in *. lia.
Qed.

(** The lines of [join LF (header :: rows)]. *)
Lemma lines_occurrences (c : ascii) (header : string) (rows : list string) :
  Forall (fun row => occurrences c row = 0) rows ->
  occurrences c (join LF (header :: rows)) =
  occurrences c header + List.length rows * occurrences c LF.
Proof.
  intro Hrows. revert header. induction Hrows as [|r rows Hr Hrows IH]; intro header.
  - simpl. lia.
  - rewrite join_cons by discriminate. rewrite !occurrences_app, IH.
    simpl List.length. lia.
Qed.

Lemma lines_last_char (header : string) (rows : list string) :
  rows <> [] ->
  Forall (fun row => row <> ""%string /\ occurrences NL row = 0) rows ->
  last_char (join LF (header :: rows)) <> Some NL.
Proof.
  intros Hne Hrows. revert header. induction Hrows as [|r rows [Hr0 Hr] Hrows IH]; intro header.
  - contradiction.
  - rewrite join_cons by discriminate.
    destruct rows as [|r' rows].
    + change (join LF [r]) with r.
      rewrite <- append_assoc, last_char_app by exact Hr0.
      intro Hl. apply last_char_occurs in Hl. lia.
    + rewrite <- append_assoc, last_char_app.
      * apply IH. discriminate.
      * rewrite join_cons by discriminate. destruct r; [contradiction|discriminate].
Qed.

End ConverterFacts.

(** ** The reference engine obeys the laws *)

Lemma RefHost_collation : @consistent_collation RefHost.engine.
Proof.
  intros s t. simpl. unfold RefHost.compare_by_code.
  rewrite (String.compare_antisym s t).
  destruct (String.compare t s); reflexivity.
Qed.

Lemma string_of_uint_no_control (c : ascii) (u : Decimal.uint) :
  (N_of_ascii c < 32)%N -> occurrences c (NilEmpty.string_of_uint u) = 0.
Proof.
  intro Hc. induction u; cbn [NilEmpty.string_of_uint];
    try rewrite occurrences_printable by (exact Hc || reflexivity); auto.
Qed.

Lemma digits_of_N_no_control (c : ascii) (n : N) :
  (N_of_ascii c < 32)%N -> occurrences c (RefHost.digits_of_N n) = 0.
Proof.
  intro Hc. unfold RefHost.digits_of_N, NilZero.string_of_uint.
  destruct (N.to_uint n) eqn:Hu; rewrite <- ?Hu;
    try (apply string_of_uint_no_control; exact Hc).
  rewrite occurrences_printable by (exact Hc || reflexivity). reflexivity.
Qed.

Lemma strip_trailing_zeros_no_control (c : ascii) (s : string) :
  occurrences c s = 0 -> occurrences c (fst (RefHost.strip_trailing_zeros s)) = 0.
Proof.
  induction s as [|a s IH]; [reflexivity|].
  cbn [occurrences RefHost.strip_trailing_zeros]. intro Hs.
  destruct (RefHost.strip_trailing_zeros s) as [rest' z]. cbn [fst] in *.
  destruct rest' as [|b rest'].
  - destruct (Ascii.eqb a "0"); cbn [fst occurrences]; lia.
  - cbn [fst]. cbn [occurrences] in *. lia.
Qed.

Lemma zeros_no_control (c : ascii) (n : nat) :
  (N_of_ascii c < 32)%N -> occurrences c (RefHost.zeros n) = 0.
Proof.
  intro Hc. induction n as [|n IH]; [reflexivity|].
  cbn [RefHost.zeros]. rewrite occurrences_printable by (exact Hc || reflexivity). exact IH.
Qed.

Lemma substring_no_control (c : ascii) (s : string) :
  occurrences c s = 0 -> forall n m, occurrences c (substring n m s) = 0.
Proof.
  induction s as [|a s IH]; intros Hs n m.
  - destruct n, m; reflexivity.
  - cbn [occurrences] in Hs. destruct n as [|n].
    + destruct m as [|m]; [reflexivity|].
      cbn [substring occurrences]. rewrite IH by lia. lia.
    + cbn [substring]. apply IH. lia.
Qed.

Lemma decimal_toString_no_control (c : ascii) (d : RefHost.decimal) :
  (N_of_ascii c < 32)%N -> occurrences c (RefHost.decimal_toString d) = 0.
Proof.
  intro Hc. unfold RefHost.decimal_toString.
  destruct (RefHost.dec_mant d =? 0)%N.
  { rewrite occurrences_printable by (exact Hc || reflexivity). reflexivity. }
  pose proof (strip_trailing_zeros_no_control c _
                (digits_of_N_no_control c (RefHost.dec_mant d) Hc)) as Hdigits.
  destruct (RefHost.strip_trailing_zeros (RefHost.digits_of_N (RefHost.dec_mant d)))
    as [digits z].
  cbn [fst] in Hdigits. cbv zeta.
  assert (Hsub : forall n m, occurrences c (substring n m digits) = 0)
    by (apply substring_no_control; exact Hdigits).
  assert (Hexp : forall e, occurrences c
            ((if (e <? 0)%Z then "-" else "+") ++ RefHost.digits_of_N (Z.to_N (Z.abs e)))%string = 0).
  { intro e. rewrite occurrences_app, digits_of_N_no_control by exact Hc.
    destruct (e <? 0)%Z; rewrite occurrences_printable by (exact Hc || reflexivity);
      reflexivity. }
  rewrite occurrences_app.
  assert (Hsign : occurrences c (if RefHost.dec_neg d then "-" else "")%string = 0).
  { destruct (RefHost.dec_neg d); [|reflexivity].
    rewrite occurrences_printable by (exact Hc || reflexivity). reflexivity. }
  rewrite Hsign.
  repeat match goal with
         | |- context [if ?b then _ else _] => destruct b
         end;
    repeat (rewrite ?occurrences_app, ?Hsub, ?Hexp, ?Hdigits, ?zeros_no_control,
              ?digits_of_N_no_control by exact Hc;
            rewrite ?occurrences_printable by (exact Hc || reflexivity));
    reflexivity.
Qed.

Lemma RefHost_numerals : @numerals_on_one_line RefHost.engine.
Proof.
  intro n. split; apply decimal_toString_no_control; vm_compute; reflexivity.
Qed.

(** ** The properties of [jsonToCsv] *)
Section Claims.
Context {H : Host}.

(** C1.  The data rows are the rows of the records in descending [rollNo]
    order: the text is rendered from a permutation [sorted] of the input
    in which every record is followed by one whose [rollNo] is not greater
    under [localeCompare]. *)
Theorem rows_sorted_by_rollNo_descending (jsonData : list JsonRecord) :
  consistent_collation ->
  jsonData <> [] ->
  Forall hasTextRollNo jsonData ->
  exists first sorted,
    Permutation jsonData sorted /\
    jsonToCsv jsonData =
      Ok (join LF (join "," (headersOf first) :: map (csvRow (baseHeadersOf first)) sorted)) /\
    forall i p q,
      nth_error sorted i = Some p -> nth_error sorted (S i) = Some q ->
      exists s t, rollNo p = Some s /\ rollNo q = Some t /\ (0 <= localeCompare s t)%Z.
Proof.
  intros Hcoll Hne Hall.
  destruct (jsonToCsv_returns jsonData Hne Hall) as (first & rest & Hs & Hperm & Hcsv).
  exists first, (first :: rest). split; [exact Hperm|]. split; [exact Hcsv|].
  intros i p q Hp Hq.
  pose proof (sort_keyDescending _ _ Hcoll Hs) as Hsorted.
  destruct (Sorted_adjacent _ _ Hsorted i p q Hp Hq) as (kp & kq & Hkp & Hkq & Hle).
  assert (Htext : forall r, In r (first :: rest) -> hasTextRollNo r).
  { intros r Hr. rewrite Forall_forall in Hall. apply Hall.
    apply Permutation_in with (first :: rest); [apply Permutation_sym; exact Hperm|exact Hr]. }
  destruct (Htext p (nth_error_In _ _ Hp)) as [s Hsp].
  destruct (Htext q (nth_error_In _ _ Hq)) as [t Htq].
  exists s, t. split; [exact Hsp|]. split; [exact Htq|].
  unfold sortKey in Hkp, Hkq.
  rewrite (rollNo_Get p s Hsp) in Hkp. rewrite (rollNo_Get q t Htq) in Hkq.
  simpl in Hkp, Hkq. inversion Hkp; inversion Hkq; subst. exact Hle.
Qed.

(** C4.  The header row lists the field names of the first sorted record
    other than [SGPA] and [instituteName], in the order of [Object.keys],
    then [SGPA_sem1] to [SGPA_sem8], then [instituteName]; so it ends with
    the nine fixed names whatever the order of the fields. *)
Theorem header_row_layout (jsonData : list JsonRecord) :
  jsonData <> [] ->
  Forall hasTextRollNo jsonData ->
  exists first rest,
    Array_sort byRollNoDescending jsonData = Ok (first :: rest) /\
    let header :=
      join "," (filter (fun key => negb (key =? "SGPA") && negb (key =? "instituteName"))
                       (Object_keys first)
                ++ ["SGPA_sem1"; "SGPA_sem2"; "SGPA_sem3"; "SGPA_sem4";
                    "SGPA_sem5"; "SGPA_sem6"; "SGPA_sem7"; "SGPA_sem8"]
                ++ ["instituteName"])%list in
    jsonToCsv jsonData =
      Ok (join LF (header :: map (csvRow (baseHeadersOf first)) (first :: rest))) /\
    ends_with
      "SGPA_sem1,SGPA_sem2,SGPA_sem3,SGPA_sem4,SGPA_sem5,SGPA_sem6,SGPA_sem7,SGPA_sem8,instituteName"
      header.
Proof.
  intros Hne Hall.
  destruct (jsonToCsv_returns jsonData Hne Hall) as (first & rest & Hs & _ & Hcsv).
  exists first, rest. split; [exact Hs|]. split; [exact Hcsv|].
  set (base := filter _ _).
  destruct base as [|b base'].
  - exists ""%string. reflexivity.
  - exists (join "," (b :: base') ++ ",")%string.
    rewrite join_app by discriminate. rewrite append_assoc. reflexivity.
Qed.

(** C6.  The empty collection gives the empty text, without header. *)
Theorem empty_input_gives_empty_text : jsonToCsv [] = Ok ""%string.
Proof. reflexivity. Qed.

(** C2, as amended.  The cell under a base header is [JSON.stringify] of
    the field when the field is truthy: a text becomes a quoted JSON
    string, a finite number its bare numeral without quotes.  A falsy
    field, and a field that is missing under a header that names nothing
    inherited from [Object.prototype], gives the empty quoted cell. *)
Theorem base_cell_is_stringified_field
        (baseHeaders : list string) (row : JsonRecord) (i : nat) (header : string) :
  nth_error baseHeaders i = Some header ->
  exists cell,
    nth_error (rowCells baseHeaders row) i = Some cell /\
    (forall j, own_property row header = Some j -> ToBoolean (Json j) = true ->
               cell = Some (stringify j)) /\
    (forall s, own_property row header = Some (JString s) -> s <> ""%string ->
               cell = Some (String DQUOTE (quote_chars s ++ String DQUOTE ""))) /\
    (forall n, own_property row header = Some (JNumber n) ->
               Number_toBoolean n = true -> Number_isFinite n = true ->
               cell = Some (Number_toString n)) /\
    (forall j, own_property row header = Some j -> falsy j -> cell = Some emptyCell) /\
    (own_property row header = None -> inherited header = false -> cell = Some emptyCell).
Proof.
  intro Hh. exists (baseCell row header).
  split; [apply rowCells_base; exact Hh|].
  split; [intros j Ho Ht; apply baseCell_truthy; assumption|].
  split.
  { intros s Ho Hs. rewrite (baseCell_truthy row header (JString s) Ho); [reflexivity|].
    cbn [ToBoolean]. destruct (String.eqb_spec s ""); [contradiction|reflexivity]. }
  split.
  { intros n Ho Ht Hf. rewrite (baseCell_truthy row header (JNumber n) Ho Ht).
    cbn [stringify]. rewrite Hf. reflexivity. }
  split; [intros j Ho Hf; apply baseCell_falsy with j; assumption|].
  intros Ho Hi. apply baseCell_absent; assumption.
Qed.

(** C3, as amended.  On the two records of the scenario the row of A3
    comes first and the row of A1 second; the row of A3 has the empty
    quoted cell in the eight SGPA columns; the row of A1 has the bare
    numeral 8.5, without quotes, under SGPA_sem1 and the empty quoted cell
    under sem2 to sem8. *)
Theorem scenario_A1_A3 (n : number) :
  Number_toString n = "8.5"%string ->
  Number_isFinite n = true ->
  Number_toBoolean n = true ->
  (localeCompare "A1" "A3" < 0)%Z ->
  jsonToCsv [recordA1 n; recordA3] =
  Ok (join LF [ scenarioHeader;
                text "'A3','','','','','','','','','Y'";
                text "'A1',8.5,'','','','','','','','X'" ]).
Proof.
  intros Hs Hf Ht Hlt.
  assert (Hsort : Array_sort byRollNoDescending [recordA1 n; recordA3]
                  = Ok [recordA3; recordA1 n]).
  { unfold Array_sort. cbn [sort_from insert bind].
    rewrite (byRollNoDescending_text recordA3 (recordA1 n) "A3" "A1" eq_refl eq_refl).
    cbn [bind]. apply Z.ltb_lt in Hlt. rewrite Hlt. reflexivity. }
  rewrite (jsonToCsv_of_sorted _ _ _ Hsort).
  unfold render. f_equal. f_equal. f_equal.
  cbn [map]. f_equal. f_equal.
  unfold csvRow. rewrite rowCells_columns.
  assert (Hcell : sgpaCell (recordA1 n) "SGPA_sem1" = Some "8.5"%string).
  { rewrite <- Hs.
    replace (Number_toString n) with (stringify (JNumber n))
      by (cbn [stringify]; rewrite Hf; reflexivity).
    apply (sgpaCell_truthy (recordA1 n) "1" [("sem1"%string, JNumber n)] (JNumber n));
      [simpl; tauto|reflexivity|reflexivity|exact Ht]. }
  rewrite Hcell. reflexivity.
Qed.

(** C5, as amended.  For N records the text is the header line and N
    data rows joined by single line feeds, and it does not end with a line
    feed.  No data row holds a line feed or a carriage return; the header
    holds the field names as they are.  So the text has N line feeds, that
    is N+1 lines, and no carriage return, when the field names of the
    first sorted record hold no line break. *)
Theorem output_is_header_and_one_row_per_record (jsonData : list JsonRecord) :
  numerals_on_one_line ->
  jsonData <> [] ->
  Forall hasTextRollNo jsonData ->
  exists first rest,
    Array_sort byRollNoDescending jsonData = Ok (first :: rest) /\
    let header := join "," (headersOf first) in
    let rows := map (csvRow (baseHeadersOf first)) (first :: rest) in
    let output := join LF (header :: rows) in
    jsonToCsv jsonData = Ok output /\
    List.length rows = List.length jsonData /\
    Forall (fun row => occurrences NL row = 0 /\ occurrences CR row = 0) rows /\
    last_char output <> Some NL /\
    occurrences NL output = occurrences NL header + List.length jsonData /\
    occurrences CR output = occurrences CR header /\
    (Forall (fun key => occurrences NL key = 0 /\ occurrences CR key = 0) (Object_keys first) ->
     occurrences NL output = List.length jsonData /\ occurrences CR output = 0).
Proof.
  intros Hnum Hne Hall.
  destruct (jsonToCsv_returns jsonData Hne Hall) as (first & rest & Hs & Hperm & Hcsv).
  exists first, rest. split; [exact Hs|]. cbv zeta.
  set (header := join "," (headersOf first)).
  set (rows := map (csvRow (baseHeadersOf first)) (first :: rest)).
  assert (Hlen : List.length rows = List.length jsonData).
  { unfold rows. rewrite length_map. symmetry. apply Permutation_length. exact Hperm. }
  assert (HNL : (N_of_ascii NL < 32)%N) by (vm_compute; reflexivity).
  assert (HCR : (N_of_ascii CR < 32)%N) by (vm_compute; reflexivity).
  assert (Hrows : forall c, (N_of_ascii c < 32)%N ->
                    (forall n, occurrences c (Number_toString n) = 0) ->
                    Forall (fun row => occurrences c row = 0) rows).
  { intros c Hc Hn. unfold rows. apply Forall_map, Forall_forall. intros r _.
    apply csvRow_no_control; assumption. }
  assert (HrowsNL := Hrows NL HNL (fun n => proj1 (Hnum n))).
  assert (HrowsCR := Hrows CR HCR (fun n => proj2 (Hnum n))).
  assert (HoccNL : occurrences NL (join LF (header :: rows))
                   = occurrences NL header + List.length jsonData).
  { rewrite lines_occurrences by exact HrowsNL. rewrite Hlen.
    change (occurrences NL LF) with 1. lia. }
  assert (HoccCR : occurrences CR (join LF (header :: rows)) = occurrences CR header).
  { rewrite lines_occurrences by exact HrowsCR.
    change (occurrences CR LF) with 0. lia. }
  split; [exact Hcsv|]. split; [exact Hlen|].
  split.
  { rewrite Forall_forall in HrowsNL, HrowsCR. apply Forall_forall. intros r Hr.
    split; [apply HrowsNL|apply HrowsCR]; exact Hr. }
  split.
  { apply lines_last_char; [unfold rows; discriminate|].
    rewrite Forall_forall in HrowsNL. apply Forall_forall. intros r Hr.
    split; [|apply HrowsNL; exact Hr].
    unfold rows in Hr. apply in_map_iff in Hr. destruct Hr as (x & <- & _).
    apply csvRow_not_empty. }
  split; [exact HoccNL|]. split; [exact HoccCR|].
  intro Hkeys.
  assert (Hheader : forall c,
            Forall (fun key => occurrences c key = 0) (Object_keys first) ->
            occurrences c "," = 0 ->
            Forall (fun key => occurrences c key = 0) (sgpaHeaders ++ ["instituteName"%string]) ->
            occurrences c header = 0).
  { intros c Hk Hsep Hfixed. unfold header, headersOf. apply join_occurrences_0; [exact Hsep|].
    apply Forall_app. split; [|exact Hfixed].
    unfold baseHeadersOf. rewrite Forall_forall in Hk. apply Forall_forall.
    intros key Hin. apply filter_In in Hin. apply Hk. apply Hin. }
  rewrite HoccNL, HoccCR. split.
  - rewrite (Hheader NL); [reflexivity| |reflexivity|].
    + apply Forall_impl with (2 := Hkeys). intros key [Hk _]. exact Hk.
    + repeat constructor.
  - apply (Hheader CR); [|reflexivity|].
    + apply Forall_impl with (2 := Hkeys). intros key [_ Hk]. exact Hk.
    + repeat constructor.
Qed.

(** C7, as amended.  After the base cells a row has the eight SGPA cells
    and then the cell of [instituteName].  The cell of [SGPA_semK] is
    [JSON.stringify] of the value at [semK] inside the nested [SGPA]
    mapping when that value is truthy; it is the empty quoted cell when
    the value is falsy, when the key is absent, when [SGPA] is absent or
    is no mapping.  A record without [instituteName] has the empty quoted
    cell in the last column. *)
Theorem sgpa_and_instituteName_cells (baseHeaders : list string) (row : JsonRecord) :
  rowCells baseHeaders row =
    map (baseCell row) baseHeaders ++
    [ sgpaCell row "SGPA_sem1"; sgpaCell row "SGPA_sem2"; sgpaCell row "SGPA_sem3";
      sgpaCell row "SGPA_sem4"; sgpaCell row "SGPA_sem5"; sgpaCell row "SGPA_sem6";
      sgpaCell row "SGPA_sem7"; sgpaCell row "SGPA_sem8" ] ++
    [ instituteNameCell row ] /\
  (forall k, In k semesterDigits ->
     (forall o v, own_property row "SGPA" = Some (JObject o) ->
                  own_property o ("sem" ++ k) = Some v -> ToBoolean (Json v) = true ->
                  sgpaCell row ("SGPA_sem" ++ k) = Some (stringify v)) /\
     (forall o v, own_property row "SGPA" = Some (JObject o) ->
                  own_property o ("sem" ++ k) = Some v -> falsy v ->
                  sgpaCell row ("SGPA_sem" ++ k) = Some emptyCell) /\
     (forall o, own_property row "SGPA" = Some (JObject o) ->
                own_property o ("sem" ++ k) = None ->
                sgpaCell row ("SGPA_sem" ++ k) = Some emptyCell) /\
     (forall j, own_property row "SGPA" = Some j -> (forall o, j <> JObject o) ->
                sgpaCell row ("SGPA_sem" ++ k) = Some emptyCell) /\
     (own_property row "SGPA" = None ->
      sgpaCell row ("SGPA_sem" ++ k) = Some emptyCell)) /\
  (forall j, own_property row "instituteName" = Some j -> ToBoolean (Json j) = true ->
             instituteNameCell row = Some (stringify j)) /\
  (own_property row "instituteName" = None -> instituteNameCell row = Some emptyCell).
Proof.
  split; [apply rowCells_columns|]. split.
  - intros k Hk. repeat split.
    + intros o v. apply sgpaCell_truthy. exact Hk.
    + intros o v. apply sgpaCell_falsy. exact Hk.
    + intros o. apply sgpaCell_no_semester. exact Hk.
    + intros j. apply sgpaCell_not_a_mapping. exact Hk.
    + apply sgpaCell_no_SGPA. exact Hk.
  - split; [apply instituteNameCell_truthy|apply instituteNameCell_absent].
Qed.

(** C10, as amended.  A base field, a semester value or an
    [instituteName] that is present but falsy gives the empty quoted cell.
    So does an absent semester value, an absent [instituteName], and an
    absent base field whose name is not one that every object inherits
    from [Object.prototype]. *)
Theorem falsy_fields_give_the_empty_cell (row : JsonRecord) :
  (forall header j, own_property row header = Some j -> falsy j ->
                    baseCell row header = Some emptyCell) /\
  (forall k o v, In k semesterDigits ->
                 own_property row "SGPA" = Some (JObject o) ->
                 own_property o ("sem" ++ k) = Some v -> falsy v ->
                 sgpaCell row ("SGPA_sem" ++ k) = Some emptyCell) /\
  (forall j, own_property row "instituteName" = Some j -> falsy j ->
             instituteNameCell row = Some emptyCell) /\
  (forall header, own_property row header = None -> inherited header = false ->
                  baseCell row header = Some emptyCell) /\
  (forall k o, In k semesterDigits ->
               own_property row "SGPA" = Some (JObject o) ->
               own_property o ("sem" ++ k) = None ->
               sgpaCell row ("SGPA_sem" ++ k) = Some emptyCell) /\
  (forall k, In k semesterDigits -> own_property row "SGPA" = None ->
             sgpaCell row ("SGPA_sem" ++ k) = Some emptyCell) /\
  (own_property row "instituteName" = None -> instituteNameCell row = Some emptyCell).
Proof.
  split; [intros header j; apply baseCell_falsy|].
  split; [intros k o v; apply sgpaCell_falsy|].
  split; [intros j; apply instituteNameCell_falsy|].
  split; [intros header; apply baseCell_absent|].
  split; [intros k o; apply sgpaCell_no_semester|].
  split; [intros k; apply sgpaCell_no_SGPA|].
  apply instituteNameCell_absent.
Qed.

(** C8.  [convertJsonFileToCsv] always completes normally, with no value.
    Either every step went through, the file was written and one line was
    printed; or the input could not be read, or its text could not be
    parsed, or the conversion threw, or the output could not be written,
    and then the world is unchanged but for one diagnostic that carries
    the error. *)
Theorem convertJsonFileToCsv_never_throws (inputFilePath outputFilePath : string) (w : World) :
  (exists data jsonData csvData,
      files w inputFilePath = Some data /\
      JSON_parse data = Ok jsonData /\
      call_jsonToCsv jsonData = Ok csvData /\
      writable w outputFilePath = true /\
      convertJsonFileToCsv inputFilePath outputFilePath w =
        (Ok tt, logged (written w outputFilePath csvData)
                       (ConsoleLog ("CSV file has been saved to " ++ outputFilePath))))
  \/
  (exists error,
      ((files w inputFilePath = None /\ error = SystemError "ENOENT") \/
       (exists data, files w inputFilePath = Some data /\
          (JSON_parse data = Throw error \/
           exists jsonData, JSON_parse data = Ok jsonData /\
             (call_jsonToCsv jsonData = Throw error \/
              exists csvData, call_jsonToCsv jsonData = Ok csvData /\
                writable w outputFilePath = false /\ error = SystemError "EACCES")))) /\
      convertJsonFileToCsv inputFilePath outputFilePath w =
        (Ok tt, logged w (ConsoleError "Error converting JSON to CSV:" error))).
Proof.
  unfold convertJsonFileToCsv, try_catch, bindIO, fs_readFile, lift, fs_writeFile,
    console_log, console_error, print.
  destruct (files w inputFilePath) as [data|] eqn:Hread.
  2:{ right. exists (SystemError "ENOENT"). split; [left; split; reflexivity|reflexivity]. }
  destruct (JSON_parse data) as [jsonData|e] eqn:Hparse.
  2:{ right. exists e. split; [|reflexivity].
      right. exists data. split; [reflexivity|]. left. first [reflexivity|exact Hparse]. }
  destruct (call_jsonToCsv jsonData) as [csvData|e] eqn:Hcsv.
  2:{ right. exists e. split; [|reflexivity].
      right. exists data. split; [reflexivity|]. right. exists jsonData.
      split; [first [reflexivity|exact Hparse]|]. left. first [reflexivity|exact Hcsv]. }
  destruct (writable w outputFilePath) eqn:Hw.
  - left. exists data, jsonData, csvData.
    repeat split; first [reflexivity|assumption].
  - right. exists (SystemError "EACCES"). split; [|reflexivity].
    right. exists data. split; [reflexivity|]. right. exists jsonData.
    split; [first [reflexivity|exact Hparse]|]. right. exists csvData.
    repeat split; first [reflexivity|assumption].
Qed.

(** C9, as amended.  When the file holds a JSON array of objects and
    every record has a text [rollNo] -- or the array has at most one
    record -- the conversion succeeds and writes the CSV text; no other
    field is needed. *)
Theorem conversion_succeeds_with_text_rollNo
        (inputFilePath outputFilePath data : string) (w : World)
        (records : list JsonRecord) :
  files w inputFilePath = Some data ->
  JSON_parse data = Ok (JArray (map JObject records)) ->
  writable w outputFilePath = true ->
  List.length records <= 1 \/ Forall hasTextRollNo records ->
  exists csvData,
    jsonToCsv records = Ok csvData /\
    convertJsonFileToCsv inputFilePath outputFilePath w =
      (Ok tt, logged (written w outputFilePath csvData)
                     (ConsoleLog ("CSV file has been saved to " ++ outputFilePath))).
Proof.
  intros Hread Hparse Hw Hrecords.
  assert (Hcsv : exists csvData, jsonToCsv records = Ok csvData).
  { destruct records as [|r [|r' l]].
    - exists ""%string. reflexivity.
    - eexists. reflexivity.
    - destruct Hrecords as [Hlen|Hall]; [simpl in Hlen; lia|].
      destruct (jsonToCsv_returns (r :: r' :: l)) as (first & rest & _ & _ & Hc);
        [discriminate|exact Hall|].
      eexists. exact Hc. }
  destruct Hcsv as [csvData Hcsv]. exists csvData. split; [exact Hcsv|].
  assert (Has : asRecords (map JObject records) = Some records).
  { clear. induction records as [|r l IH]; [reflexivity|].
    cbn [map asRecords]. rewrite IH. reflexivity. }
  unfold convertJsonFileToCsv, try_catch, bindIO, fs_readFile, lift, fs_writeFile,
    console_log, print, call_jsonToCsv.
  rewrite Hread, Hparse, Has, Hcsv, Hw. reflexivity.
Qed.

End Claims.

(** ** The properties at work on the reference engine *)
Section Runs.
Import Examples.
Local Existing Instance RefHost.engine.

Lemma rows_sorted_on_scenario :
  consistent_collation /\
  [recordA1 d85; recordA3] <> [] /\
  Forall hasTextRollNo [recordA1 d85; recordA3] /\
  exists first sorted,
    Permutation [recordA1 d85; recordA3] sorted /\
    jsonToCsv [recordA1 d85; recordA3] =
      Ok (join LF (join "," (headersOf first) :: map (csvRow (baseHeadersOf first)) sorted)) /\
    forall i p q,
      nth_error sorted i = Some p -> nth_error sorted (S i) = Some q ->
      exists s t, rollNo p = Some s /\ rollNo q = Some t /\ (0 <= localeCompare s t)%Z.
Proof.
  assert (Hne : [recordA1 d85; recordA3] <> []) by discriminate.
  assert (Hall : Forall hasTextRollNo [recordA1 d85; recordA3]).
  { repeat constructor; eexists; reflexivity. }
  split; [exact RefHost_collation|]. split; [exact Hne|]. split; [exact Hall|].
  exact (rows_sorted_by_rollNo_descending [recordA1 d85; recordA3] RefHost_collation Hne Hall).
Defined.

Lemma header_row_on_scenario :
  [recordA1 d85; recordA3] <> [] /\
  Forall hasTextRollNo [recordA1 d85; recordA3] /\
  exists first rest,
    Array_sort byRollNoDescending [recordA1 d85; recordA3] = Ok (first :: rest) /\
    let header :=
      join "," (filter (fun key => negb (key =? "SGPA") && negb (key =? "instituteName"))
                       (Object_keys first)
                ++ ["SGPA_sem1"; "SGPA_sem2"; "SGPA_sem3"; "SGPA_sem4";
                    "SGPA_sem5"; "SGPA_sem6"; "SGPA_sem7"; "SGPA_sem8"]
                ++ ["instituteName"])%list in
    jsonToCsv [recordA1 d85; recordA3] =
      Ok (join LF (header :: map (csvRow (baseHeadersOf first)) (first :: rest))) /\
    ends_with
      "SGPA_sem1,SGPA_sem2,SGPA_sem3,SGPA_sem4,SGPA_sem5,SGPA_sem6,SGPA_sem7,SGPA_sem8,instituteName"
      header.
Proof.
  assert (Hne : [recordA1 d85; recordA3] <> []) by discriminate.
  assert (Hall : Forall hasTextRollNo [recordA1 d85; recordA3]).
  { repeat constructor; eexists; reflexivity. }
  split; [exact Hne|]. split; [exact Hall|].
  exact (header_row_layout [recordA1 d85; recordA3] Hne Hall).
Defined.

Lemma graded_cell_is_stringified :
  nth_error ["rollNo"; "cgpa"]%string 1 = Some "cgpa"%string /\
  exists cell,
    nth_error (rowCells ["rollNo"; "cgpa"]%string graded) 1 = Some cell /\
    (forall j, own_property graded "cgpa" = Some j -> ToBoolean (Json j) = true ->
               cell = Some (stringify j)) /\
    (forall s, own_property graded "cgpa" = Some (JString s) -> s <> ""%string ->
               cell = Some (String DQUOTE (quote_chars s ++ String DQUOTE ""))) /\
    (forall n, own_property graded "cgpa" = Some (JNumber n) ->
               Number_toBoolean n = true -> Number_isFinite n = true ->
               cell = Some (Number_toString n)) /\
    (forall j, own_property graded "cgpa" = Some j -> falsy j -> cell = Some emptyCell) /\
    (own_property graded "cgpa" = None -> inherited "cgpa" = false -> cell = Some emptyCell).
Proof.
  split; [reflexivity|].
  exact (base_cell_is_stringified_field ["rollNo"; "cgpa"]%string graded 1 "cgpa" eq_refl).
Defined.

Lemma scenario_on_reference_engine :
  Number_toString d85 = "8.5"%string /\
  Number_isFinite d85 = true /\
  Number_toBoolean d85 = true /\
  (localeCompare "A1" "A3" < 0)%Z /\
  jsonToCsv [recordA1 d85; recordA3] =
  Ok (join LF [ scenarioHeader;
                text "'A3','','','','','','','','','Y'";
                text "'A1',8.5,'','','','','','','','X'" ]).
Proof.
  split; [reflexivity|]. split; [reflexivity|]. split; [reflexivity|].
  split; [reflexivity|].
  exact (scenario_A1_A3 d85 eq_refl eq_refl eq_refl eq_refl).
Defined.

Lemma lines_on_scenario :
  numerals_on_one_line /\
  [recordA1 d85; recordA3] <> [] /\
  Forall hasTextRollNo [recordA1 d85; recordA3] /\
  exists first rest,
    Array_sort byRollNoDescending [recordA1 d85; recordA3] = Ok (first :: rest) /\
    let header := join "," (headersOf first) in
    let rows := map (csvRow (baseHeadersOf first)) (first :: rest) in
    let output := join LF (header :: rows) in
    jsonToCsv [recordA1 d85; recordA3] = Ok output /\
    List.length rows = List.length [recordA1 d85; recordA3] /\
    Forall (fun row => occurrences NL row = 0 /\ occurrences CR row = 0) rows /\
    last_char output <> Some NL /\
    occurrences NL output = occurrences NL header + List.length [recordA1 d85; recordA3] /\
    occurrences CR output = occurrences CR header /\
    (Forall (fun key => occurrences NL key = 0 /\ occurrences CR key = 0) (Object_keys first) ->
     occurrences NL output = List.length [recordA1 d85; recordA3] /\ occurrences CR output = 0).
Proof.
  assert (Hne : [recordA1 d85; recordA3] <> []) by discriminate.
  assert (Hall : Forall hasTextRollNo [recordA1 d85; recordA3]).
  { repeat constructor; eexists; reflexivity. }
  split; [exact RefHost_numerals|]. split; [exact Hne|]. split; [exact Hall|].
  exact (output_is_header_and_one_row_per_record [recordA1 d85; recordA3]
           RefHost_numerals Hne Hall).
Defined.

Lemma sgpa_cells_on_scenario :
  sgpaCell (recordA1 d85) "SGPA_sem1" = Some "8.5"%string /\
  sgpaCell (recordA1 d85) "SGPA_sem2" = Some emptyCell /\
  sgpaCell graded "SGPA_sem8" = Some emptyCell /\
  instituteNameCell graded = Some emptyCell.
Proof.
  pose proof (sgpa_and_instituteName_cells [] (recordA1 d85)) as (_ & Hsem & _).
  pose proof (sgpa_and_instituteName_cells [] graded) as (_ & Hsem' & _ & Hinst).
  split.
  { destruct (Hsem "1"%string) as (Htruthy & _); [simpl; tauto|].
    exact (Htruthy [("sem1"%string, JNumber d85)] (JNumber d85) eq_refl eq_refl eq_refl). }
  split.
  { destruct (Hsem "2"%string) as (_ & _ & Habsent & _); [simpl; tauto|].
    exact (Habsent [("sem1"%string, JNumber d85)] eq_refl eq_refl). }
  split.
  { destruct (Hsem' "8"%string) as (_ & _ & _ & _ & Hnone); [simpl; tauto|].
    exact (Hnone eq_refl). }
  exact (Hinst eq_refl).
Defined.

Lemma conversion_of_scenario_file :
  files (worldWith "results.json" scenarioText) "results.json" = Some scenarioText /\
  JSON_parse scenarioText = Ok (JArray (map JObject [recordA1 d85; recordA3])) /\
  writable (worldWith "results.json" scenarioText) "results.csv" = true /\
  (List.length [recordA1 d85; recordA3] <= 1 \/ Forall hasTextRollNo [recordA1 d85; recordA3]) /\
  exists csvData,
    jsonToCsv [recordA1 d85; recordA3] = Ok csvData /\
    convertJsonFileToCsv "results.json" "results.csv" (worldWith "results.json" scenarioText) =
      (Ok tt, logged (written (worldWith "results.json" scenarioText) "results.csv" csvData)
                     (ConsoleLog ("CSV file has been saved to " ++ "results.csv"))).
Proof.
  assert (Hparse : JSON_parse scenarioText = Ok (JArray (map JObject [recordA1 d85; recordA3])))
    by (vm_compute; reflexivity).
  assert (Hall : List.length [recordA1 d85; recordA3] <= 1 \/
                 Forall hasTextRollNo [recordA1 d85; recordA3]).
  { right. repeat constructor; eexists; reflexivity. }
  split; [reflexivity|]. split; [exact Hparse|]. split; [reflexivity|]. split; [exact Hall|].
  exact (conversion_succeeds_with_text_rollNo "results.json" "results.csv" scenarioText
           (worldWith "results.json" scenarioText) [recordA1 d85; recordA3]
           eq_refl Hparse eq_refl Hall).
Defined.

Lemma falsy_cells_on_examples :
  sgpaCell failedFirstSemester "SGPA_sem1" = Some emptyCell /\
  baseCell withToString "toString" = Some emptyCell /\
  baseCell withoutToString "cgpa" = Some emptyCell /\
  instituteNameCell withToString = Some emptyCell.
Proof.
  pose proof (falsy_fields_give_the_empty_cell failedFirstSemester) as (_ & Hsem & _).
  pose proof (falsy_fields_give_the_empty_cell withToString) as (Hbase & _ & _ & _ & _ & _ & Hinst).
  pose proof (falsy_fields_give_the_empty_cell withoutToString) as (_ & _ & _ & Habsent & _).
  split.
  { apply (Hsem "1"%string [("sem1"%string, JNumber zero)] (JNumber zero));
      [simpl; tauto|reflexivity|reflexivity|reflexivity]. }
  split; [exact (Hbase "toString"%string (JNumber zero) eq_refl eq_refl)|].
  split; [exact (Habsent "cgpa"%string eq_refl eq_refl)|].
  exact (Hinst eq_refl).
Defined.

(** *** Where the specification says otherwise *)

(** C2.  A number is not quoted: the cell of the field [cgpa] holding 8.5
    is the bare numeral, not the quoted text. *)
Lemma number_cell_is_not_quoted :
  own_property graded "cgpa" = Some (JNumber d85) /\
  nth_error (rowCells ["rollNo"; "cgpa"]%string graded) 1 = Some (Some "8.5"%string) /\
  Some "8.5"%string <> Some (text "'8.5'") /\
  jsonToCsv [graded] =
    Ok (join LF
          [ "rollNo,cgpa,SGPA_sem1,SGPA_sem2,SGPA_sem3,SGPA_sem4,SGPA_sem5,SGPA_sem6,SGPA_sem7,SGPA_sem8,instituteName"%string;
            text "'A1',8.5,'','','','','','','','',''" ]).
Proof.
  split; [reflexivity|]. split; [reflexivity|]. split; [discriminate|]. reflexivity.
Qed.

(** C3.  On the file of the scenario the cell of A1 under SGPA_sem1 is
    the bare numeral 8.5 and not a quoted cell. *)
Lemma scenario_cell_is_not_quoted :
  JSON_parse scenarioText = Ok (JArray [JObject (recordA1 d85); JObject recordA3]) /\
  jsonToCsv [recordA1 d85; recordA3] =
    Ok (join LF [ scenarioHeader;
                  text "'A3','','','','','','','','','Y'";
                  text "'A1',8.5,'','','','','','','','X'" ]) /\
  nth_error (rowCells ["rollNo"%string] (recordA1 d85)) 1 = Some (Some "8.5"%string) /\
  Some "8.5"%string <> Some (text "'8.5'").
Proof.
  split; [vm_compute; reflexivity|]. split; [reflexivity|]. split; [reflexivity|].
  discriminate.
Qed.

(** C5.  One record whose second field name holds a carriage return and
    a line feed: the text has two line feeds, so three lines for one
    record, and it holds a carriage return. *)
Lemma line_break_in_field_name :
  hasTextRollNo withBrokenName /\
  jsonToCsv [withBrokenName] = Ok brokenOutput /\
  List.length [withBrokenName] = 1 /\
  occurrences NL brokenOutput = 2 /\
  occurrences CR brokenOutput = 1.
Proof.
  split; [eexists; reflexivity|]. repeat split; reflexivity.
Qed.

(** C7.  The grade 0 at [sem1] is present, and its JSON encoding is the
    numeral 0, but the cell is the empty quoted cell. *)
Lemma zero_grade_is_dropped :
  own_property failedFirstSemester "SGPA" = Some (JObject [("sem1"%string, JNumber zero)]) /\
  own_property [("sem1"%string, JNumber zero)] "sem1" = Some (JNumber zero) /\
  stringify (JNumber zero) = "0"%string /\
  sgpaCell failedFirstSemester "SGPA_sem1" = Some emptyCell /\
  Some emptyCell <> Some "0"%string.
Proof.
  repeat split; try reflexivity. discriminate.
Qed.

(** C9.  A file with two objects that have no [rollNo]: the comparator
    throws, nothing is written, and the error is printed. *)
Lemma records_without_rollNo_are_not_converted :
  JSON_parse twoEmptyRecords = Ok (JArray [JObject []; JObject []]) /\
  jsonToCsv [[]; []] = Throw TypeError /\
  convertJsonFileToCsv "results.json" "results.csv" (worldWith "results.json" twoEmptyRecords) =
    (Ok tt, logged (worldWith "results.json" twoEmptyRecords)
                   (ConsoleError "Error converting JSON to CSV:" TypeError)) /\
  files (snd (convertJsonFileToCsv "results.json" "results.csv"
                (worldWith "results.json" twoEmptyRecords))) "results.csv" = None.
Proof.
  split; [vm_compute; reflexivity|]. split; [reflexivity|].
  split; [vm_compute; reflexivity|]. vm_compute. reflexivity.
Qed.

(** C10.  Under the header [toString] a record that holds the falsy
    value 0 gets the empty quoted cell, and a record without the field
    gets no text at all: the two can be told apart. *)
Lemma absent_toString_differs_from_falsy :
  own_property withToString "toString" = Some (JNumber zero) /\
  falsy (JNumber zero) /\
  own_property withoutToString "toString" = None /\
  baseCell withToString "toString" = Some emptyCell /\
  baseCell withoutToString "toString" = None /\
  jsonToCsv [withToString; withoutToString] =
    Ok (join LF
          [ "rollNo,toString,SGPA_sem1,SGPA_sem2,SGPA_sem3,SGPA_sem4,SGPA_sem5,SGPA_sem6,SGPA_sem7,SGPA_sem8,instituteName"%string;
            text "'B','','','','','','','','','',''";
            text "'A',,'','','','','','','','',''" ]).
Proof.
  repeat split; reflexivity.
Qed.

End Runs.

(** ** More about the sort: ties, sorted input, order of the input *)
Section SortOrder.
Context {H : Host}.
Hypothesis collation : consistent_collation.
Hypothesis transitive : transitive_collation.

Lemma rollNoDescending_trans (p q r : JsonRecord) :
  rollNoDescending p q -> rollNoDescending q r -> rollNoDescending p r.
Proof.
  intros (s & t & Hp & Hq & Hst) (t' & u & Hq' & Hr & Htu).
  rewrite Hq in Hq'. inversion Hq'; subst t'.
  exists s, u. split; [exact Hp|]. split; [exact Hr|].
  apply transitive with t; assumption.
Qed.

Lemma keyDescending_text (p q : JsonRecord) :
  hasTextRollNo p -> hasTextRollNo q -> keyDescending p q -> rollNoDescending p q.
Proof.
  intros [s Hs] [t Ht] (kp & kq & Hkp & Hkq & Hle).
  unfold sortKey in Hkp, Hkq.
  rewrite (rollNo_Get p s Hs) in Hkp. rewrite (rollNo_Get q t Ht) in Hkq.
  simpl in Hkp, Hkq. inversion Hkp; inversion Hkq; subst.
  exists kp, kq. repeat split; assumption.
Qed.

Lemma Sorted_keyDescending_text (l : list JsonRecord) :
  Forall hasTextRollNo l -> Sorted keyDescending l -> StronglySorted rollNoDescending l.
Proof.
  intros Hall Hs. apply Sorted_StronglySorted.
  - intros p q r. apply rollNoDescending_trans.
  - induction Hs as [|x l Hl IH Hhd]; [constructor|].
    inversion Hall as [|? ? Hx Hrest]; subst.
    constructor; [apply IH; exact Hrest|].
    destruct Hhd as [|y l' Hxy]; constructor.
    inversion Hrest; subst. apply keyDescending_text; assumption.
Qed.

(** The sorted records, with all that is known about them. *)
Lemma sort_text (jsonData sorted : list JsonRecord) :
  Forall hasTextRollNo jsonData ->
  Array_sort byRollNoDescending jsonData = Ok sorted ->
  Permutation jsonData sorted /\ Forall hasTextRollNo sorted /\
  StronglySorted rollNoDescending sorted.
Proof.
  intros Hall Hs.
  pose proof (Array_sort_Permutation _ _ _ Hs) as Hperm.
  assert (Hall' : Forall hasTextRollNo sorted).
  { apply Forall_forall. intros r Hr. rewrite Forall_forall in Hall. apply Hall.
    apply Permutation_in with sorted; [apply Permutation_sym; exact Hperm|exact Hr]. }
  split; [exact Hperm|]. split; [exact Hall'|].
  apply Sorted_keyDescending_text; [exact Hall'|].
  apply sort_keyDescending with jsonData; assumption.
Qed.

Lemma StronglySorted_before {A : Type} (R : A -> A -> Prop) (l1 l2 : list A) (x : A) :
  StronglySorted R (l1 ++ x :: l2) -> Forall (fun p => R p x) l1.
Proof.
  induction l1 as [|y l1 IH]; simpl; intro Hs; [constructor|].
  inversion Hs as [|? ? Hrest Hall]; subst. constructor.
  - rewrite Forall_forall in Hall. apply Hall. apply in_or_app. right. left. reflexivity.
  - apply IH. exact Hrest.
Qed.

(** An element that no placed element is smaller than goes last. *)
Lemma insert_last (x : JsonRecord) (placed : list JsonRecord) :
  Forall (fun p => rollNoDescending p x) placed ->
  insert byRollNoDescending x placed = Ok (placed ++ [x]).
Proof.
  induction 1 as [|y placed (s & t & Hy & Hx & Hle) Hrest IH]; [reflexivity|].
  cbn [insert]. rewrite (byRollNoDescending_text x y t s Hx Hy). cbn [bind].
  destruct (localeCompare s t <? 0)%Z eqn:Hneg; [apply Z.ltb_lt in Hneg; lia|].
  rewrite IH. reflexivity.
Qed.

Lemma sort_from_sorted (pending placed : list JsonRecord) :
  StronglySorted rollNoDescending (placed ++ pending) ->
  sort_from byRollNoDescending placed pending = Ok (placed ++ pending).
Proof.
  revert placed. induction pending as [|x rest IH]; intros placed Hs.
  - rewrite app_nil_r. reflexivity.
  - cbn [sort_from]. rewrite insert_last by (apply StronglySorted_before with rest; exact Hs).
    cbn [bind]. rewrite IH; rewrite <- app_assoc; [reflexivity|exact Hs].
Qed.


(** Records in descending order are determined by the records they are,
    when records with equal [rollNo] are equal. *)
Lemma sorted_permutation_unique (l1 l2 : list JsonRecord) :
  (forall p q, In p l1 -> In q l1 -> rollNoDescending p q -> rollNoDescending q p -> p = q) ->
  StronglySorted rollNoDescending l1 -> StronglySorted rollNoDescending l2 ->
  Permutation l1 l2 -> l1 = l2.
Proof.
  revert l2. induction l1 as [|h1 l1 IH]; intros l2 Hanti Hs1 Hs2 Hperm.
  - apply Permutation_nil in Hperm. symmetry. exact Hperm.
  - destruct l2 as [|h2 l2]; [apply Permutation_sym, Permutation_nil in Hperm; discriminate|].
    inversion Hs1 as [|? ? Hs1' Hall1]; subst. inversion Hs2 as [|? ? Hs2' Hall2]; subst.
    assert (Hhead : h1 = h2).
    { assert (Hin1 : In h1 (h2 :: l2)) by (apply Permutation_in with (h1 :: l1); [exact Hperm|left; reflexivity]).
      assert (Hin2 : In h2 (h1 :: l1))
        by (apply Permutation_in with (h2 :: l2); [apply Permutation_sym; exact Hperm|left; reflexivity]).
      destruct Hin1 as [Heq|Hin1]; [symmetry; exact Heq|].
      destruct Hin2 as [Heq|Hin2]; [exact Heq|].
      rewrite Forall_forall in Hall1, Hall2.
      apply Hanti; [left; reflexivity|right; exact Hin2|apply Hall1; exact Hin2|apply Hall2; exact Hin1]. }
    subst h2. f_equal. apply IH; [|exact Hs1'|exact Hs2'|].
    + intros p q Hp Hq. apply Hanti; right; assumption.
    + apply Permutation_cons_inv with h1. exact Hperm.
Qed.

(** X2.  When records with equal [rollNo] are equal records, the text does
    not depend on the order of the input. *)
Theorem jsonToCsv_ignores_input_order (jsonData shuffled : list JsonRecord) :
  Forall hasTextRollNo jsonData ->
  Permutation jsonData shuffled ->
  (forall p q s t, In p jsonData -> In q jsonData ->
     rollNo p = Some s -> rollNo q = Some t -> localeCompare s t = 0%Z -> p = q) ->
  jsonToCsv shuffled = jsonToCsv jsonData.
Proof.
  intros Hall Hperm Hkey.
  assert (Hall' : Forall hasTextRollNo shuffled).
  { apply Forall_forall. intros r Hr. rewrite Forall_forall in Hall. apply Hall.
    apply Permutation_in with shuffled; [apply Permutation_sym; exact Hperm|exact Hr]. }
  destruct (sort_returns jsonData Hall) as [s1 Hs1].
  destruct (sort_returns shuffled Hall') as [s2 Hs2].
  destruct (sort_text _ _ Hall Hs1) as (Hp1 & _ & Hst1).
  destruct (sort_text _ _ Hall' Hs2) as (Hp2 & _ & Hst2).
  assert (Heq : s1 = s2).
  { apply sorted_permutation_unique; [|exact Hst1|exact Hst2|].
    - intros p q Hp Hq (s & t & Hps & Hqt & Hle) (t' & s' & Hqt' & Hps' & Hle').
      rewrite Hps in Hps'. rewrite Hqt in Hqt'. inversion Hps'; inversion Hqt'; subst s' t'.
      apply (Hkey p q s t); try assumption.
      + apply Permutation_in with s1; [apply Permutation_sym; exact Hp1|exact Hp].
      + apply Permutation_in with s1; [apply Permutation_sym; exact Hp1|exact Hq].
      + specialize (collation s t). lia.
    - apply perm_trans with jsonData; [apply Permutation_sym; exact Hp1|].
      apply perm_trans with shuffled; assumption. }
  subst s2. destruct s1 as [|first rest].
  - apply Permutation_sym, Permutation_nil in Hp1. apply Permutation_sym, Permutation_nil in Hp2.
    subst. reflexivity.
  - rewrite (jsonToCsv_of_sorted _ _ _ Hs1), (jsonToCsv_of_sorted _ _ _ Hs2). reflexivity.
Qed.

(** Placing a record keeps the records of every class of equal [rollNo]
    in their order, the new one last. *)
Lemma insert_keeps_ties (k : string) (x : JsonRecord) (placed l : list JsonRecord) :
  hasTextRollNo x -> Forall hasTextRollNo placed ->
  StronglySorted rollNoDescending placed ->
  insert byRollNoDescending x placed = Ok l ->
  filter (sameRollNo k) l = filter (sameRollNo k) placed ++ filter (sameRollNo k) [x].
Proof.
  intros [sx Hx] Hall Hs. revert l.
  induction Hs as [|y rest Hrest IH Hy]; intros l Hl.
  - inversion Hl. reflexivity.
  - inversion Hall as [|? ? [sy Hsy] Hall']; subst.
    cbn [insert] in Hl. rewrite (byRollNoDescending_text x y sx sy Hx Hsy) in Hl.
    cbn [bind] in Hl. destruct (localeCompare sy sx <? 0)%Z eqn:Hneg.
    + inversion Hl; subst l. apply Z.ltb_lt in Hneg.
      remember (y :: rest) as before eqn:Hbefore.
      cbn [filter]. destruct (sameRollNo k x) eqn:Hkx; [|rewrite app_nil_r; reflexivity].
      assert (Hnone : forall z, In z before -> sameRollNo k z = false).
      { intros z Hz. destruct (sameRollNo k z) eqn:Hkz; [exfalso|reflexivity].
        unfold sameRollNo in Hkx, Hkz. rewrite Hx in Hkx.
        destruct (rollNo z) as [sz|] eqn:Hsz; [|discriminate].
        apply Z.eqb_eq in Hkx, Hkz.
        assert (Hzx : (0 <= localeCompare sz sx)%Z).
        { apply transitive with k; [lia|]. specialize (collation k sx). lia. }
        assert (Hyz : (0 <= localeCompare sy sz)%Z).
        { rewrite Hbefore in Hz. destruct Hz as [<-|Hz].
          - rewrite Hsy in Hsz. inversion Hsz; subst sz.
            specialize (collation sy sy). lia.
          - rewrite Forall_forall in Hy. destruct (Hy z Hz) as (a & b & Ha & Hb & Hab).
            rewrite Hsy in Ha. rewrite Hsz in Hb. inversion Ha; inversion Hb; subst. exact Hab. }
        pose proof (transitive sy sz sx Hyz Hzx). lia. }
      assert (Hempty : filter (sameRollNo k) before = []).
      { clear -Hnone. induction before as [|z l IH]; [reflexivity|].
        cbn [filter]. rewrite (Hnone z) by (left; reflexivity).
        apply IH. intros w Hw. apply Hnone. right. exact Hw. }
      rewrite Hempty. reflexivity.
    + destruct (insert byRollNoDescending x rest) as [rest'|e] eqn:Hins; [|discriminate].
      cbn [bind] in Hl. inversion Hl; subst l.
      cbn [filter]. rewrite (IH Hall' rest' eq_refl).
      destruct (sameRollNo k y); reflexivity.
Qed.

Lemma sort_from_keeps_ties (k : string) (pending placed l : list JsonRecord) :
  Forall hasTextRollNo pending -> Forall hasTextRollNo placed ->
  StronglySorted rollNoDescending placed ->
  sort_from byRollNoDescending placed pending = Ok l ->
  filter (sameRollNo k) l = filter (sameRollNo k) (placed ++ pending).
Proof.
  revert placed l. induction pending as [|x rest IH]; intros placed l Hpend Hplaced Hs Hl.
  - inversion Hl. rewrite app_nil_r. reflexivity.
  - inversion Hpend as [|? ? Hx Hrest]; subst. cbn [sort_from] in Hl.
    destruct (insert byRollNoDescending x placed) as [placed'|e] eqn:Hins; [|discriminate].
    cbn [bind] in Hl.
    assert (Hsorted : Array_sort byRollNoDescending placed = Ok placed)
      by (apply (sort_from_sorted placed []); exact Hs).
    assert (Hplaced' : Forall hasTextRollNo placed').
    { apply Forall_forall. intros r Hr.
      apply insert_Permutation, Permutation_sym in Hins.
      apply (Permutation_in _ Hins) in Hr. destruct Hr as [<-|Hr]; [exact Hx|].
      rewrite Forall_forall in Hplaced. apply Hplaced. exact Hr. }
    assert (Hs' : StronglySorted rollNoDescending placed').
    { apply Sorted_keyDescending_text; [exact Hplaced'|].
      apply insert_Sorted with byRollNoDescending x placed.
      - intros a b c. apply negative_keyDescending. exact collation.
      - apply other_keyDescending.
      - exact Hins.
      - apply sort_keyDescending with placed; assumption. }
    rewrite (IH placed' l Hrest Hplaced' Hs' Hl).
    rewrite !filter_app. rewrite (insert_keeps_ties k x placed placed' Hx Hplaced Hs Hins).
    cbn [filter]. rewrite <- app_assoc. destruct (sameRollNo k x); reflexivity.
Qed.

(** X3.  Records whose [rollNo] compare equal keep the order they have
    in the input: for every [k], the records with a [rollNo] equal to [k]
    are the same sequence in the sorted array and in the input. *)
Theorem sort_keeps_order_of_equal_rollNo (jsonData sorted : list JsonRecord) (k : string) :
  Forall hasTextRollNo jsonData ->
  Array_sort byRollNoDescending jsonData = Ok sorted ->
  filter (sameRollNo k) sorted = filter (sameRollNo k) jsonData.
Proof.
  intros Hall Hs.
  apply (sort_from_keeps_ties k jsonData [] sorted Hall); [constructor|constructor|exact Hs].
Qed.

End SortOrder.

(** ** More about the converter: errors, columns, files *)
Section ConverterEdges.
Context {H : Host}.

Lemma byRollNoDescending_without_rollNo (x y : JsonRecord) :
  rollNo y = None -> byRollNoDescending x y = Throw TypeError.
Proof.
  unfold rollNo, byRollNoDescending, Get. intro Hy.
  destruct (own_property y "rollNo") as [[| | |s| |]|]; try discriminate; reflexivity.
Qed.

(** X4.  Two or more records of which none has a text [rollNo] are not
    converted: the comparator throws a [TypeError] at its first call,
    whichever two records the sort hands to it. *)
Theorem jsonToCsv_throws_without_rollNo (jsonData : list JsonRecord) :
  2 <= List.length jsonData ->
  Forall (fun r => rollNo r = None) jsonData ->
  jsonToCsv jsonData = Throw TypeError.
Proof.
  intros Hlen Hall. destruct jsonData as [|r1 [|r2 l]]; try (simpl in Hlen; lia).
  inversion Hall as [|? ? Hr1 _]; subst.
  unfold jsonToCsv, Array_sort. cbn [List.length Nat.eqb sort_from insert bind].
  rewrite (byRollNoDescending_without_rollNo r2 r1 Hr1). reflexivity.
Qed.

(** The columns never include [SGPA]; [instituteName] is there once. *)
Lemma baseHeadersOf_spec (first : JsonRecord) (key : string) :
  In key (baseHeadersOf first) <->
  In key (Object_keys first) /\ key <> "SGPA"%string /\ key <> "instituteName"%string.
Proof.
  unfold baseHeadersOf. rewrite filter_In, andb_true_iff, !negb_true_iff.
  rewrite !String.eqb_neq. reflexivity.
Qed.

(** X5.  Whatever the fields of the first record, no column is named
    [SGPA], and exactly one column, the last, is named [instituteName]. *)
Theorem header_names (first : JsonRecord) :
  ~ In "SGPA"%string (headersOf first) /\
  count_occ string_dec (headersOf first) "instituteName" = 1 /\
  last (headersOf first) ""%string = "instituteName"%string.
Proof.
  unfold headersOf. repeat split.
  - intro Hin. apply in_app_or in Hin. destruct Hin as [Hin|Hin].
    + apply baseHeadersOf_spec in Hin. tauto.
    + simpl in Hin. repeat (destruct Hin as [Hin|Hin]; [discriminate|]). contradiction.
  - rewrite count_occ_app.
    replace (count_occ string_dec (baseHeadersOf first) "instituteName") with 0.
    + reflexivity.
    + symmetry. apply count_occ_not_In. intro Hin. apply baseHeadersOf_spec in Hin. tauto.
  - rewrite app_assoc. apply last_last.
Qed.

(** X6.  The line of a record is made of what the record holds under the
    columns alone: two records that read the same under every base
    header, under [sem1] to [sem8] of [SGPA] and under [instituteName]
    give the same line, whatever else they hold. *)
Theorem csvRow_reads_columns_only (baseHeaders : list string) (row row' : JsonRecord) :
  (forall header, In header baseHeaders -> Get row header = Get row' header) ->
  (forall k, In k semesterDigits ->
     optional_member (Get row "SGPA") ("sem" ++ k) =
     optional_member (Get row' "SGPA") ("sem" ++ k)) ->
  Get row "instituteName" = Get row' "instituteName" ->
  csvRow baseHeaders row = csvRow baseHeaders row'.
Proof.
  intros Hbase Hsem Hinst. unfold csvRow. f_equal. rewrite !rowCells_columns.
  f_equal; [|f_equal].
  - apply map_ext_in. intros header Hin. unfold baseCell. rewrite (Hbase header Hin). reflexivity.
  - assert (Hcell : forall k, In k semesterDigits ->
              sgpaCell row ("SGPA_sem" ++ k) = sgpaCell row' ("SGPA_sem" ++ k)).
    { intros k Hk. rewrite !sgpaCell_unfold by exact Hk. rewrite (Hsem k Hk). reflexivity. }
    pose proof (Hcell "1"%string) as H1. pose proof (Hcell "2"%string) as H2.
    pose proof (Hcell "3"%string) as H3. pose proof (Hcell "4"%string) as H4.
    pose proof (Hcell "5"%string) as H5. pose proof (Hcell "6"%string) as H6.
    pose proof (Hcell "7"%string) as H7. pose proof (Hcell "8"%string) as H8.
    simpl in H1, H2, H3, H4, H5, H6, H7, H8.
    rewrite H1, H2, H3, H4, H5, H6, H7, H8 by tauto. reflexivity.
  - unfold instituteNameCell. rewrite Hinst. reflexivity.
Qed.

(** *** Runs of [convertJsonFileToCsv] *)

Lemma convertJsonFileToCsv_run (inputFilePath outputFilePath : string) (w : World) :
  convertJsonFileToCsv inputFilePath outputFilePath w =
  match files w inputFilePath with
  | None => (Ok tt, logged w (ConsoleError failureMessage (SystemError "ENOENT")))
  | Some data =>
      match JSON_parse data with
      | Throw error => (Ok tt, logged w (ConsoleError failureMessage error))
      | Ok jsonData =>
          match call_jsonToCsv jsonData with
          | Throw error => (Ok tt, logged w (ConsoleError failureMessage error))
          | Ok csvData =>
              if writable w outputFilePath
              then (Ok tt, logged (written w outputFilePath csvData)
                                  (ConsoleLog ("CSV file has been saved to " ++ outputFilePath)))
              else (Ok tt, logged w (ConsoleError failureMessage (SystemError "EACCES")))
          end
      end
  end.
Proof.
  unfold convertJsonFileToCsv, try_catch, bindIO, fs_readFile, lift, fs_writeFile,
    console_log, console_error, print.
  destruct (files w inputFilePath) as [data|]; [|reflexivity].
  destruct (JSON_parse data) as [jsonData|e]; [|reflexivity].
  destruct (call_jsonToCsv jsonData) as [csvData|e]; [|reflexivity].
  destruct (writable w outputFilePath); reflexivity.
Qed.



(** X9.  A file whose JSON value is no array is rejected with a
    [TypeError], and nothing is written -- unless the value is the empty
    string or an object whose own [length] is zero: then the first line of
    [jsonToCsv] returns the empty text, which is written as for an empty
    array. *)
Theorem non_array_content
        (inputFilePath outputFilePath data : string) (parsed : JSON) (w : World) :
  files w inputFilePath = Some data ->
  JSON_parse data = Ok parsed ->
  isArray parsed = false ->
  convertJsonFileToCsv inputFilePath outputFilePath w =
    if passesLengthCheck parsed then
      if writable w outputFilePath
      then (Ok tt, logged (written w outputFilePath "")
                          (ConsoleLog ("CSV file has been saved to " ++ outputFilePath)))
      else (Ok tt, logged w (ConsoleError failureMessage (SystemError "EACCES")))
    else (Ok tt, logged w (ConsoleError failureMessage TypeError)).
Proof.
  intros Hread Hparse Harr. rewrite convertJsonFileToCsv_run, Hread, Hparse.
  destruct parsed as [|b|n|s|items|props]; try discriminate; try reflexivity.
  - cbn [call_jsonToCsv passesLengthCheck]. destruct (s =? "")%string; reflexivity.
  - cbn [call_jsonToCsv passesLengthCheck].
    destruct (own_property props "length") as [[| |n| | |]|]; try reflexivity.
    destruct (Number_toBoolean n); reflexivity.
Qed.

Lemma skip_whitespace_blank (s : string) : blank s = true -> skip_whitespace s = ""%string.
Proof.
  induction s as [|c s IH]; [reflexivity|]. cbn [blank skip_whitespace]. intro Hb.
  apply andb_true_iff in Hb. destruct Hb as [Hc Hs]. rewrite Hc. apply IH. exact Hs.
Qed.

(** X10.  A file that is empty or holds white space only is no JSON text:
    the run prints the [SyntaxError] and writes nothing (an empty array,
    on the other hand, gives an empty output file). *)
Theorem blank_file_is_rejected (inputFilePath outputFilePath data : string) (w : World) :
  files w inputFilePath = Some data ->
  blank data = true ->
  convertJsonFileToCsv inputFilePath outputFilePath w =
    (Ok tt, logged w (ConsoleError failureMessage SyntaxError)).
Proof.
  intros Hread Hblank. rewrite convertJsonFileToCsv_run, Hread.
  assert (Hparse : JSON_parse data = Throw SyntaxError).
  { unfold JSON_parse.
    replace (2 * String.length data + 2) with (S (2 * String.length data + 1)) by lia.
    cbn [parse_value]. rewrite (skip_whitespace_blank data Hblank). reflexivity. }
  rewrite Hparse. reflexivity.
Qed.

End ConverterEdges.

(** ** The further properties at work on the reference engine *)

Lemma compare_not_Lt_trans (s t u : string) :
  String.compare s t <> Lt -> String.compare t u <> Lt -> String.compare s u <> Lt.
Proof.
  revert t u. induction s as [|a s IH]; intros [|b t] [|c u]; simpl; try congruence.
  unfold Ascii.compare.
  destruct (N.compare_spec (N_of_ascii a) (N_of_ascii b)) as [Hab|Hab|Hab];
    destruct (N.compare_spec (N_of_ascii b) (N_of_ascii c)) as [Hbc|Hbc|Hbc];
    destruct (N.compare_spec (N_of_ascii a) (N_of_ascii c)) as [Hac|Hac|Hac];
    try congruence; try lia.
  apply IH.
Qed.

Lemma RefHost_transitive : @transitive_collation RefHost.engine.
Proof.
  intros s t u. simpl. unfold RefHost.compare_by_code. intros Hst Htu.
  pose proof (compare_not_Lt_trans s t u) as Htrans.
  destruct (String.compare s t); try lia;
    destruct (String.compare t u); try lia;
    destruct (String.compare s u); try lia;
    exfalso; apply Htrans; congruence.
Qed.

Section MoreRuns.
Import Examples.
Local Existing Instance RefHost.engine.


Lemma scenario_shuffled :
  consistent_collation /\ transitive_collation /\
  Forall hasTextRollNo [recordA1 d85; recordA3] /\
  Permutation [recordA1 d85; recordA3] [recordA3; recordA1 d85] /\
  (forall p q s t, In p [recordA1 d85; recordA3] -> In q [recordA1 d85; recordA3] ->
     rollNo p = Some s -> rollNo q = Some t -> localeCompare s t = 0%Z -> p = q) /\
  jsonToCsv [recordA3; recordA1 d85] = jsonToCsv [recordA1 d85; recordA3].
Proof.
  assert (Hall : Forall hasTextRollNo [recordA1 d85; recordA3])
    by (repeat constructor; eexists; reflexivity).
  assert (Hperm : Permutation [recordA1 d85; recordA3] [recordA3; recordA1 d85])
    by apply perm_swap.
  assert (Hkey : forall p q s t, In p [recordA1 d85; recordA3] -> In q [recordA1 d85; recordA3] ->
            rollNo p = Some s -> rollNo q = Some t -> localeCompare s t = 0%Z -> p = q).
  { intros p q s t [<-|[<-|[]]] [<-|[<-|[]]] Hs Ht Hc;
      inversion Hs; inversion Ht; subst; try reflexivity; discriminate Hc. }
  split; [exact RefHost_collation|]. split; [exact RefHost_transitive|].
  split; [exact Hall|]. split; [exact Hperm|]. split; [exact Hkey|].
  exact (jsonToCsv_ignores_input_order RefHost_collation RefHost_transitive
           [recordA1 d85; recordA3] [recordA3; recordA1 d85] Hall Hperm Hkey).
Defined.

Lemma twins_keep_their_order :
  consistent_collation /\ transitive_collation /\
  Forall hasTextRollNo [firstOfTwins; recordA3; secondOfTwins] /\
  Array_sort byRollNoDescending [firstOfTwins; recordA3; secondOfTwins] =
    Ok [recordA3; firstOfTwins; secondOfTwins] /\
  filter (sameRollNo "A1") [recordA3; firstOfTwins; secondOfTwins] =
  filter (sameRollNo "A1") [firstOfTwins; recordA3; secondOfTwins].
Proof.
  assert (Hall : Forall hasTextRollNo [firstOfTwins; recordA3; secondOfTwins])
    by (repeat constructor; eexists; reflexivity).
  split; [exact RefHost_collation|]. split; [exact RefHost_transitive|].
  split; [exact Hall|]. split; [reflexivity|].
  exact (sort_keeps_order_of_equal_rollNo RefHost_collation RefHost_transitive
           [firstOfTwins; recordA3; secondOfTwins] [recordA3; firstOfTwins; secondOfTwins]
           "A1" Hall eq_refl).
Defined.

Lemma two_empty_records_throw :
  2 <= List.length bareRecords /\
  Forall (fun r : JsonRecord => rollNo r = None) bareRecords /\
  jsonToCsv bareRecords = Throw TypeError.
Proof.
  assert (Hlen : 2 <= List.length bareRecords) by (simpl; lia).
  assert (Hall : Forall (fun r : JsonRecord => rollNo r = None) bareRecords)
    by (repeat constructor).
  split; [exact Hlen|]. split; [exact Hall|].
  exact (jsonToCsv_throws_without_rollNo bareRecords Hlen Hall).
Defined.

Lemma extra_fields_are_dropped :
  (forall header, In header ["rollNo"%string] ->
     Get (recordA1 d85) header = Get recordA1Extra header) /\
  (forall k, In k semesterDigits ->
     optional_member (Get (recordA1 d85) "SGPA") ("sem" ++ k) =
     optional_member (Get recordA1Extra "SGPA") ("sem" ++ k)) /\
  Get (recordA1 d85) "instituteName" = Get recordA1Extra "instituteName" /\
  csvRow ["rollNo"%string] (recordA1 d85) = csvRow ["rollNo"%string] recordA1Extra.
Proof.
  assert (Hbase : forall header, In header ["rollNo"%string] ->
            Get (recordA1 d85) header = Get recordA1Extra header).
  { intros header [<-|[]]. reflexivity. }
  assert (Hsem : forall k, In k semesterDigits ->
            optional_member (Get (recordA1 d85) "SGPA") ("sem" ++ k) =
            optional_member (Get recordA1Extra "SGPA") ("sem" ++ k)).
  { intros k Hk. unfold semesterDigits in Hk. simpl in Hk.
    repeat (destruct Hk as [<-|Hk]; [reflexivity|]). contradiction. }
  split; [exact Hbase|]. split; [exact Hsem|]. split; [reflexivity|].
  exact (csvRow_reads_columns_only ["rollNo"%string] (recordA1 d85) recordA1Extra
           Hbase Hsem eq_refl).
Defined.


Lemma length_zero_object_is_accepted :
  files (worldWith "results.json" lengthZeroText) "results.json" = Some lengthZeroText /\
  JSON_parse lengthZeroText = Ok (JObject [("length"%string, JNumber zero)]) /\
  isArray (JObject [("length"%string, JNumber zero)]) = false /\
  convertJsonFileToCsv "results.json" "results.csv" (worldWith "results.json" lengthZeroText) =
    (Ok tt, logged (written (worldWith "results.json" lengthZeroText) "results.csv" "")
                   (ConsoleLog ("CSV file has been saved to " ++ "results.csv"))).
Proof.
  assert (Hparse : JSON_parse lengthZeroText = Ok (JObject [("length"%string, JNumber zero)]))
    by (vm_compute; reflexivity).
  split; [reflexivity|]. split; [exact Hparse|]. split; [reflexivity|].
  exact (non_array_content "results.json" "results.csv" lengthZeroText
           (JObject [("length"%string, JNumber zero)])
           (worldWith "results.json" lengthZeroText) eq_refl Hparse eq_refl).
Defined.

Lemma empty_file_is_rejected :
  files (worldWith "results.json" "") "results.json" = Some ""%string /\
  blank "" = true /\
  convertJsonFileToCsv "results.json" "results.csv" (worldWith "results.json" "") =
    (Ok tt, logged (worldWith "results.json" "") (ConsoleError failureMessage SyntaxError)).
Proof.
  split; [reflexivity|]. split; [reflexivity|].
  exact (blank_file_is_rejected "results.json" "results.csv" ""
           (worldWith "results.json" "") eq_refl eq_refl).
Defined.

End MoreRuns.

(** ** [JSON.parse] never builds an object with a repeated key *)
Section ParseFacts.
Context {H : Host}.

Lemma own_property_None (o : JsonObject) (key : string) :
  own_property o key = None -> ~ In key (map fst o).
Proof.
  induction o as [|[k v] o IH]; simpl; [tauto|].
  destruct (String.eqb_spec k key); [discriminate|]. intros Ho [Hk|Hin]; [contradiction|].
  apply IH; assumption.
Qed.

Lemma replace_own_keys (o : JsonObject) (key : string) (v : JSON) :
  map fst (replace_own o key v) = map fst o.
Proof.
  induction o as [|[k v'] o IH]; simpl; [reflexivity|].
  destruct (k =? key)%string; simpl; [reflexivity|]. rewrite IH. reflexivity.
Qed.

Lemma replace_own_Forall (P : JSON -> Prop) (o : JsonObject) (key : string) (v : JSON) :
  P v -> Forall (fun kv => P (snd kv)) o -> Forall (fun kv => P (snd kv)) (replace_own o key v).
Proof.
  intros Hv. induction 1 as [|[k v'] o Hk Ho IH]; simpl; [constructor|].
  destruct (k =? key)%string; constructor; assumption.
Qed.

Lemma insert_index_Permutation (i : N) (key : string) (v : JSON) (o : JsonObject) :
  Permutation ((key, v) :: o) (insert_index i key v o).
Proof.
  induction o as [|[k v'] o IH]; simpl; [apply Permutation_refl|].
  destruct (array_index k) as [j|]; [|apply Permutation_refl].
  destruct (j <? i)%N; [|apply Permutation_refl].
  apply perm_trans with ((k, v') :: (key, v) :: o); [apply perm_swap|].
  apply perm_skip. exact IH.
Qed.

Lemma CreateDataProperty_distinct (o : JsonObject) (key : string) (v : JSON) :
  distinct_keys (JObject o) -> distinct_keys v ->
  distinct_keys (JObject (CreateDataProperty o key v)).
Proof.
  intros Ho Hv. inversion Ho as [| | | | |? Hnodup Hall]; subst.
  unfold CreateDataProperty, has_own_property.
  destruct (own_property o key) as [old|] eqn:Hown.
  - constructor; [rewrite replace_own_keys; exact Hnodup|].
    apply (replace_own_Forall distinct_keys); assumption.
  - apply own_property_None in Hown.
    assert (Hperm : forall o', Permutation ((key, v) :: o) o' -> distinct_keys (JObject o')).
    { intros o' Hperm. constructor.
      - apply Permutation_NoDup with (map fst ((key, v) :: o)); [apply Permutation_map; exact Hperm|].
        simpl. constructor; assumption.
      - apply Permutation_Forall with ((key, v) :: o); [exact Hperm|].
        constructor; assumption. }
    destruct (array_index key) as [i|].
    + apply Hperm. apply insert_index_Permutation.
    + apply Hperm. apply Permutation_cons_append.
Qed.

(** Case analysis on a text down to the bits of its first character, for
    the places where the parser matches a literal character. *)
Ltac split_char x :=
  destruct x as [|[[|] [|] [|] [|] [|] [|] [|] [|]] ?].

Lemma parse_distinct (fuel : nat) :
  (forall s v r, parse_value fuel s = Some (v, r) -> distinct_keys v) /\
  (forall acc s v r, Forall distinct_keys acc ->
     parse_elements fuel acc s = Some (v, r) -> distinct_keys v) /\
  (forall acc s v r, distinct_keys (JObject acc) ->
     parse_members fuel acc s = Some (v, r) -> distinct_keys v).
Proof.
  induction fuel as [|fuel (IHv & IHe & IHm)].
  - repeat split; intros; discriminate.
  - split; [|split].
    + intros s v r Hp. cbn [parse_value] in Hp.
      destruct (skip_whitespace s) as [|c rest]; [discriminate|].
      destruct (Ascii.eqb c "n").
      { destruct (expect "ull" rest); inversion Hp. constructor. }
      destruct (Ascii.eqb c "t").
      { destruct (expect "rue" rest); inversion Hp. constructor. }
      destruct (Ascii.eqb c "f").
      { destruct (expect "alse" rest); inversion Hp. constructor. }
      destruct (Ascii.eqb c DQUOTE).
      { destruct (parse_string rest) as [[str r']|]; inversion Hp. constructor. }
      destruct (Ascii.eqb c "[").
      { split_char (skip_whitespace rest); cbv beta iota in Hp.
        all: try solve [inversion Hp; constructor; constructor].
        all: solve [eapply IHe; [|exact Hp]; constructor]. }
      destruct (Ascii.eqb c "{").
      { split_char (skip_whitespace rest); cbv beta iota in Hp.
        all: try solve [inversion Hp; constructor; simpl; constructor].
        all: solve [eapply IHm; [|exact Hp]; constructor; simpl; constructor]. }
      destruct (parse_number (String c rest)) as [[lit r']|]; inversion Hp. constructor.
    + intros acc s v r Hacc Hp. cbn [parse_elements] in Hp.
      destruct (parse_value fuel s) as [[x r0]|] eqn:Hx; [|discriminate].
      assert (Hacc' : Forall distinct_keys (acc ++ [x])).
      { apply Forall_app. split; [exact Hacc|]. constructor; [|constructor].
        eapply IHv. exact Hx. }
      split_char (skip_whitespace r0); cbv beta iota in Hp.
      all: try discriminate.
      all: try solve [inversion Hp; constructor; exact Hacc'].
      all: solve [eapply IHe; [exact Hacc'|exact Hp]].
    + intros acc s v r Hacc Hp. cbn [parse_members] in Hp.
      destruct (skip_whitespace s) as [|c rest]; [discriminate|].
      destruct (Ascii.eqb c DQUOTE); [|discriminate].
      destruct (parse_string rest) as [[key r0]|]; [|discriminate].
      split_char (skip_whitespace r0); cbv beta iota in Hp; try discriminate.
      destruct (parse_value fuel s0) as [[x r2]|] eqn:Hx; [|discriminate].
      assert (Hacc' : distinct_keys (JObject (CreateDataProperty acc key x))).
      { apply CreateDataProperty_distinct; [exact Hacc|]. eapply IHv. exact Hx. }
      split_char (skip_whitespace r2); cbv beta iota in Hp.
      all: try discriminate.
      all: try solve [inversion Hp; subst; exact Hacc'].
      all: solve [eapply IHm; [exact Hacc'|exact Hp]].
Qed.

(** X11.  Every object that [JSON.parse] builds has pairwise distinct
    keys, at every depth; so the base headers taken from a record that was
    read from a file never repeat a name. *)
Theorem parsed_fields_are_distinct (data : string) (parsed : JSON) :
  JSON_parse data = Ok parsed ->
  distinct_keys parsed /\
  forall records first,
    parsed = JArray (map JObject records) -> In first records ->
    NoDup (baseHeadersOf first).
Proof.
  intro Hparse.
  assert (Hdistinct : distinct_keys parsed).
  { unfold JSON_parse in Hparse.
    destruct (parse_value (2 * String.length data + 2) data) as [[v rest]|] eqn:Hv;
      [|discriminate].
    destruct (skip_whitespace rest); [|discriminate]. inversion Hparse; subst.
    destruct (parse_distinct (2 * String.length data + 2)) as (Hvalue & _).
    eapply Hvalue. exact Hv. }
  split; [exact Hdistinct|].
  intros records first -> Hin.
  inversion Hdistinct as [| | | |items Hitems|]; subst.
  rewrite Forall_forall in Hitems.
  specialize (Hitems (JObject first) (in_map JObject records first Hin)).
  inversion Hitems as [| | | | |props Hnodup _]; subst.
  unfold baseHeadersOf. apply NoDup_filter. exact Hnodup.
Qed.

End ParseFacts.

(** ** The empty text stands for the empty array *)
Section EmptyText.
Context {H : Host}.

Lemma lines_at_least (header : string) (rows : list string) :
  List.length rows <= occurrences NL (join LF (header :: rows)).
Proof.
  revert header. induction rows as [|r rows IH]; intro header; [simpl; lia|].
  rewrite join_cons by discriminate. rewrite !occurrences_app.
  specialize (IH r). change (occurrences NL LF) with 1. simpl List.length. lia.
Qed.

(** X12.  Whenever [jsonToCsv] returns a text for N records, the text
    holds at least N line feeds; so the empty text is returned for the
    empty array and for nothing else. *)
Theorem empty_text_only_for_empty_array (jsonData : list JsonRecord) (csv : string) :
  jsonToCsv jsonData = Ok csv ->
  List.length jsonData <= occurrences NL csv /\
  (csv = ""%string <-> jsonData = []).
Proof.
  intro Hcsv.
  assert (Hlines : List.length jsonData <= occurrences NL csv).
  { destruct jsonData as [|r l]; [simpl; lia|].
    unfold jsonToCsv in Hcsv. change (List.length (r :: l) =? 0)%nat with false in Hcsv.
    cbv iota in Hcsv.
    destruct (Array_sort byRollNoDescending (r :: l)) as [sorted|e] eqn:Hs; [|discriminate].
    cbn [bind] in Hcsv. destruct sorted as [|first rest]; [discriminate|].
    inversion Hcsv; subst csv. unfold render.
    rewrite (Permutation_length (Array_sort_Permutation _ _ _ Hs)).
    rewrite <- (length_map (csvRow (baseHeadersOf first)) (first :: rest)).
    apply lines_at_least. }
  split; [exact Hlines|]. split.
  - intros ->. destruct jsonData; [reflexivity|simpl in Hlines; lia].
  - intros ->. inversion Hcsv. reflexivity.
Qed.

End EmptyText.

Section ParseRuns.
Import Examples.
Local Existing Instance RefHost.engine.

Lemma scenario_fields_are_distinct :
  JSON_parse scenarioText = Ok (JArray (map JObject [recordA1 d85; recordA3])) /\
  distinct_keys (JArray (map JObject [recordA1 d85; recordA3])) /\
  forall records first,
    JArray (map JObject [recordA1 d85; recordA3]) = JArray (map JObject records) ->
    In first records ->
    NoDup (baseHeadersOf first).
Proof.
  assert (Hparse : JSON_parse scenarioText = Ok (JArray (map JObject [recordA1 d85; recordA3])))
    by (vm_compute; reflexivity).
  split; [exact Hparse|].
  exact (parsed_fields_are_distinct scenarioText
           (JArray (map JObject [recordA1 d85; recordA3])) Hparse).
Defined.

Lemma scenario_text_is_not_empty :
  jsonToCsv [recordA1 d85; recordA3] =
    Ok (join LF [ scenarioHeader;
                  text "'A3','','','','','','','','','Y'";
                  text "'A1',8.5,'','','','','','','','X'" ]) /\
  List.length [recordA1 d85; recordA3] <=
    occurrences NL (join LF [ scenarioHeader;
                              text "'A3','','','','','','','','','Y'";
                              text "'A1',8.5,'','','','','','','','X'" ]) /\
  (join LF [ scenarioHeader;
             text "'A3','','','','','','','','','Y'";
             text "'A1',8.5,'','','','','','','','X'" ] = ""%string <->
   [recordA1 d85; recordA3] = []).
Proof.
  split; [reflexivity|].
  exact (empty_text_only_for_empty_array [recordA1 d85; recordA3] _ eq_refl).
Defined.

End ParseRuns.

(** ** Which record gives the columns *)
Section HeaderSource.
Context {H : Host}.
Hypothesis collation : consistent_collation.
Hypothesis transitive : transitive_collation.

(** X13.  The columns are those of a record of the input whose [rollNo]
    is greatest: the header is read off a record that no record of the
    input exceeds under [localeCompare]. *)
Theorem header_comes_from_greatest_rollNo (jsonData : list JsonRecord) :
  jsonData <> [] ->
  Forall hasTextRollNo jsonData ->
  exists first rest,
    In first jsonData /\
    jsonToCsv jsonData =
      Ok (join LF (join "," (headersOf first)
                   :: map (csvRow (baseHeadersOf first)) (first :: rest))) /\
    forall r, In r jsonData -> rollNoDescending first r.
Proof.
  intros Hne Hall.
  destruct (jsonToCsv_returns jsonData Hne Hall) as (first & rest & Hs & Hperm & Hcsv).
  destruct (sort_text collation transitive _ _ Hall Hs) as (_ & Htext & Hstrong).
  exists first, rest.
  assert (Hfirst : In first jsonData).
  { apply Permutation_in with (first :: rest);
      [apply Permutation_sym; exact Hperm|left; reflexivity]. }
  split; [exact Hfirst|]. split; [exact Hcsv|].
  intros r Hr. apply (Permutation_in _ Hperm) in Hr.
  inversion Hstrong as [|? ? _ Hrest]; subst.
  destruct Hr as [<-|Hr].
  - inversion Htext as [|? ? [s Hs0] _]; subst.
    exists s, s. split; [exact Hs0|]. split; [exact Hs0|].
    specialize (collation s s). lia.
  - rewrite Forall_forall in Hrest. apply Hrest. exact Hr.
Qed.

End HeaderSource.

Section HeaderRuns.
Import Examples.
Local Existing Instance RefHost.engine.

Lemma scenario_header_comes_from_A3 :
  consistent_collation /\ transitive_collation /\
  [recordA1 d85; recordA3] <> [] /\
  Forall hasTextRollNo [recordA1 d85; recordA3] /\
  exists first rest,
    In first [recordA1 d85; recordA3] /\
    jsonToCsv [recordA1 d85; recordA3] =
      Ok (join LF (join "," (headersOf first)
                   :: map (csvRow (baseHeadersOf first)) (first :: rest))) /\
    forall r, In r [recordA1 d85; recordA3] -> rollNoDescending first r.
Proof.
  assert (Hne : [recordA1 d85; recordA3] <> []) by discriminate.
  assert (Hall : Forall hasTextRollNo [recordA1 d85; recordA3])
    by (repeat constructor; eexists; reflexivity).
  split; [exact RefHost_collation|]. split; [exact RefHost_transitive|].
  split; [exact Hne|]. split; [exact Hall|].
  exact (header_comes_from_greatest_rollNo RefHost_collation RefHost_transitive
           [recordA1 d85; recordA3] Hne Hall).
Defined.

End HeaderRuns.
